(** * Pro-Active balance-sheet dashboard: parser, persistence adapter and
      insight requester

    A shallow embedding of the TypeScript sources

      - [types.ts]                  (FinancialItem, KPI, DashboardData)
      - the [App] component         (parseMoeda, handleFileUpload, totals)
      - [services/database.ts]      (databaseService)
      - [services/geminiService.ts] (getFinancialInsights)

    together with the fragment of ECMAScript the code relies on.  Strings are
    sequences of UTF-16 code units, Numbers are IEEE 754 binary64 values
    (through [SpecFloat]), [localStorage] is a finite map from keys to texts,
    and code that can throw returns a [completion]. *)

From Stdlib Require Import ZArith NArith List String Ascii Lia.
From Stdlib Require Import Floats.SpecFloat.
From stdpp Require Import base option list gmap countable.

Local Open Scope N_scope.

(* ===================================================================== *)
(** * The ECMAScript fragment                                              *)
(* ===================================================================== *)

Module JS.

(** ** Strings: sequences of UTF-16 code units *)

Abbreviation jsstring := (list N).

(** String literals of the sources are written as Rocq strings, whose
    bytes are the UTF-8 encoding found in the source file; [js] decodes them
    into the UTF-16 code units the engine stores. *)
Definition utf16_of_code_point (cp : N) : list N :=
  if cp <? 65536 then [cp]
  else let v := cp - 65536 in
       [55296 + N.shiftr v 10; 56320 + N.land v 1023].

Definition cont (b : N) : N := N.land b 63.

Fixpoint utf16_of_utf8 (bs : list N) : list N :=
  match bs with
  | [] => []
  | b0 :: r0 =>
      if b0 <? 128 then b0 :: utf16_of_utf8 r0
      else match r0 with
      | [] => [65533]
      | b1 :: r1 =>
          if b0 <? 224 then
            (N.shiftl (N.land b0 31) 6 + cont b1) :: utf16_of_utf8 r1
          else match r1 with
          | [] => [65533]
          | b2 :: r2 =>
              if b0 <? 240 then
                (N.shiftl (N.land b0 15) 12 + N.shiftl (cont b1) 6 + cont b2)
                  :: utf16_of_utf8 r2
              else match r2 with
              | [] => [65533]
              | b3 :: r3 =>
                  utf16_of_code_point
                    (N.shiftl (N.land b0 7) 18 + N.shiftl (cont b1) 12
                     + N.shiftl (cont b2) 6 + cont b3)
                    ++ utf16_of_utf8 r3
              end
          end
      end
  end.

Definition js (s : string) : list N :=
  utf16_of_utf8 (List.map N_of_ascii (list_ascii_of_string s)).

(** [String.prototype.includes]: [needle] occurs in [hay] as a contiguous
    run of code units. *)
Fixpoint startsWith (needle hay : list N) : bool :=
  match needle, hay with
  | [], _ => true
  | _ :: _, [] => false
  | a :: needle', b :: hay' => (a =? b) && startsWith needle' hay'
  end.

Fixpoint includes (needle hay : list N) : bool :=
  startsWith needle hay ||
  match hay with
  | [] => false
  | _ :: hay' => includes needle hay'
  end.

(** [WhiteSpace] and [LineTerminator] code points: what the regular
    expression escape [\s] matches and what [TrimString] removes. *)
Definition isWhiteSpace (c : N) : bool :=
  (9 <=? c) && (c <=? 13)
  || (c =? 32) || (c =? 160) || (c =? 5760)
  || (8192 <=? c) && (c <=? 8202)
  || (c =? 8232) || (c =? 8233) || (c =? 8239) || (c =? 8287)
  || (c =? 12288) || (c =? 65279).

(** [s.replace(/[...]/g, by)] for a pattern that is one character class:
    every code unit in the class is replaced, left to right. *)
Fixpoint replaceAll_class (cls : N -> bool) (by_ : list N) (s : list N) : list N :=
  match s with
  | [] => []
  | c :: s' =>
      (if cls c then by_ else [c]) ++ replaceAll_class cls by_ s'
  end.

(** [s.replace(pat, by)] for a string pattern: only the first occurrence
    is replaced. *)
Fixpoint replace_first (pat by_ s : list N) : list N :=
  if startsWith pat s then by_ ++ skipn (length pat) s
  else match s with
       | [] => []
       | c :: s' => c :: replace_first pat by_ s'
       end.

(** [arr.join(sep)] on an array of strings *)
Fixpoint join (sep : list N) (arr : list (list N)) : list N :=
  match arr with
  | [] => []
  | [x] => x
  | x :: arr' => x ++ sep ++ join sep arr'
  end.

(** [s || fallback] where [s] is a string or [undefined] *)
Definition String_or (s : option (list N)) (fallback : list N) : list N :=
  match s with
  | Some (c :: r) => c :: r
  | _ => fallback
  end.

(** ** Numbers: IEEE 754 binary64 *)

Abbreviation number := spec_float.

Definition prec : Z := 53.
Definition emax : Z := 1024.

Definition NaN : spec_float := S754_nan.
Definition zero : spec_float := S754_zero false.
Definition Infinity : spec_float := S754_infinity false.

(** The Number value of [m * 10^e10] (sign [s]): the binary64 value nearest
    to it, ties to even, as [StringNumericValue] prescribes (past the
    twentieth significant digit an engine may round the decimal first). *)
Definition Number_of_decimal (s : bool) (m : N) (e10 : Z) : spec_float :=
  match m with
  | N0 => S754_zero s
  | Npos p =>
      match e10 with
      | Zneg k =>
          let '(q, e, l) :=
            SFdiv_core_binary prec emax (Zpos p) 0 (Z.pow 10 (Zpos k)) 0 in
          binary_round_aux prec emax s q e l
      | _ =>
          binary_round prec emax s (Z.to_pos (Zpos p * Z.pow 10 e10)) 0
      end
  end.

Definition Number_of_N (n : N) : spec_float := Number_of_decimal false n 0.

(** [ToBoolean] on a Number: [+0], [-0] and [NaN] are falsy. *)
Definition Number_truthy (x : spec_float) : bool :=
  match x with
  | S754_zero _ | S754_nan => false
  | _ => true
  end.

(** [x || y] on Numbers. *)
Definition Number_or (x y : spec_float) : spec_float :=
  if Number_truthy x then x else y.

(** [o || 0] where [o] is a Number or [undefined] (the result of an
    optional chain). *)
Definition or_zero (o : option spec_float) : spec_float :=
  match o with
  | Some x => Number_or x zero
  | None => zero
  end.

Definition isFinite (x : spec_float) : bool :=
  match x with
  | S754_zero _ | S754_finite _ _ _ => true
  | _ => false
  end.

(** ** [parseFloat] *)

Definition isDigit (c : N) : bool := (48 <=? c) && (c <=? 57).

Fixpoint span_digits (s : list N) : list N * list N :=
  match s with
  | c :: s' =>
      if isDigit c then let '(ds, r) := span_digits s' in (c :: ds, r)
      else ([], s)
  | [] => ([], [])
  end.

Definition digits_value (ds : list N) : N :=
  fold_left (fun acc c => 10 * acc + (c - 48)) ds 0.

Fixpoint trimStart (s : list N) : list N :=
  match s with
  | c :: s' => if isWhiteSpace c then trimStart s' else s
  | [] => []
  end.

(** [ExponentPart]: [e] or [E], an optional sign and at least one digit.
    When the part is incomplete nothing of it belongs to the prefix. *)
Definition exponentPart (s : list N) : Z :=
  match s with
  | c :: r =>
      if (c =? 101) || (c =? 69) then
        match r with
        | sg :: r' =>
            if sg =? 43 then
              let '(ds, _) := span_digits r' in Z.of_N (digits_value ds)
            else if sg =? 45 then
              let '(ds, _) := span_digits r' in Z.opp (Z.of_N (digits_value ds))
            else
              let '(ds, _) := span_digits r in Z.of_N (digits_value ds)
        | [] => 0%Z
        end
      else 0%Z
  | [] => 0%Z
  end.

(** The longest prefix that is a [StrUnsignedDecimalLiteral], turned into
    its Number value; [NaN] when there is no such prefix. *)
Definition strUnsignedDecimalLiteral (sign : bool) (s : list N) : spec_float :=
  if startsWith (js "Infinity") s then S754_infinity sign
  else
    let '(ip, r) := span_digits s in
    match r with
    | 46 :: r' =>
        let '(fp, r'') := span_digits r' in
        match ip, fp with
        | [], [] => NaN
        | _, _ =>
            Number_of_decimal sign (digits_value (ip ++ fp))
              (exponentPart r'' - Z.of_nat (length fp))
        end
    | _ =>
        match ip with
        | [] => NaN
        | _ => Number_of_decimal sign (digits_value ip) (exponentPart r)
        end
    end.

Definition parseFloat (s : list N) : spec_float :=
  match trimStart s with
  | 43 :: r => strUnsignedDecimalLiteral false r
  | 45 :: r => strUnsignedDecimalLiteral true r
  | r => strUnsignedDecimalLiteral false r
  end.

(** ** Values *)

(** Primitive values: what a spreadsheet cell holds once the workbook has
    been read with [sheet_to_json(..., {header: 1})]. *)
Inductive prim :=
  | Undefined
  | Null
  | Bool (b : bool)
  | Num (x : number)
  | Str (s : jsstring).

Local Unset Elimination Schemes.

(** Plain data: primitives, arrays and objects whose own properties are
    kept in property order. *)
Inductive jsval :=
  | Prim (p : prim)
  | Arr (elems : list jsval)
  | Obj (props : list (jsstring * jsval)).
Local Set Elimination Schemes.

Definition ToBoolean (v : prim) : bool :=
  match v with
  | Undefined | Null => false
  | Bool b => b
  | Num x => Number_truthy x
  | Str s => negb (bool_decide (s = []))
  end.

Definition Boolean_toString (b : bool) : jsstring :=
  if b then js "true" else js "false".

(** Number formatting is left to the engine and to its locale data. *)
Class NumberFormat := {
  (** [Number::toString(x)], radix 10 *)
  Number_toString : number -> jsstring;
  (** [x.toLocaleString('pt-BR')] *)
  Number_toLocaleString_ptBR : number -> jsstring
}.

(** [String(v)] *)
Definition String_ `{NumberFormat} (v : prim) : jsstring :=
  match v with
  | Undefined => js "undefined"
  | Null => js "null"
  | Bool b => Boolean_toString b
  | Num x => Number_toString x
  | Str s => s
  end.

(** [String.prototype.toLowerCase] follows the Unicode case mapping tables
    of the engine. *)
Class CaseMapping := toLowerCase : jsstring -> jsstring.

(** The part of the mapping the sources depend on: in Basic Latin and
    Latin-1 Supplement the mapping is code unit by code unit. *)
Definition latin1_lower (c : N) : N :=
  if (65 <=? c) && (c <=? 90) then c + 32
  else if (192 <=? c) && (c <=? 222) && negb (c =? 215) then c + 32
  else c.

Definition isLatin1 (s : jsstring) : bool := forallb (fun c => c <? 256) s.

Class CaseMappingLatin1 `{CaseMapping} :=
  toLowerCase_latin1 :
    forall s : jsstring, isLatin1 s = true -> toLowerCase s = List.map latin1_lower s.

(** ** Completions *)

(** The outcome of evaluating code that may throw (for an awaited promise:
    fulfilled or rejected). *)
Inductive completion (A : Type) :=
  | Normal (a : A)
  | Throw (e : jsval).
Arguments Normal {A} a.
Arguments Throw {A} e.

(** ** JSON *)

(** [SerializeJSONProperty]: the value whose text [JSON.stringify] writes,
    [None] when the property is left out.  Numbers that are not finite
    become [null], [-0] is written as [0], [undefined] becomes [null] inside
    an array and is dropped from an object. *)
Definition SerializeJSONNumber (x : number) : prim :=
  match x with
  | S754_zero _ => Num zero
  | S754_finite _ _ _ => Num x
  | _ => Null
  end.

Fixpoint SerializeJSONProperty (v : jsval) : option jsval :=
  match v with
  | Prim Undefined => None
  | Prim (Num x) => Some (Prim (SerializeJSONNumber x))
  | Prim p => Some (Prim p)
  | Arr elems =>
      Some (Arr (List.map (fun e =>
                   match SerializeJSONProperty e with
                   | Some j => j
                   | None => Prim Null
                   end) elems))
  | Obj props =>
      Some (Obj (List.flat_map (fun kv =>
                   match SerializeJSONProperty (snd kv) with
                   | Some j => [(fst kv, j)]
                   | None => []
                   end) props))
  end.

(** The values that JSON text denotes exactly: no [undefined], and only the
    Numbers that have a JSON numeral, the finite ones other than [-0]. *)
Definition json_number (x : number) : bool :=
  match x with
  | S754_zero s => negb s
  | S754_finite _ _ _ => true
  | _ => false
  end.

Fixpoint json_exact (v : jsval) : bool :=
  match v with
  | Prim Undefined => false
  | Prim (Num x) => json_number x
  | Prim _ => true
  | Arr elems => forallb json_exact elems
  | Obj props => forallb (fun kv => json_exact (snd kv)) props
  end.

(** Property keys that are canonical numeric strings are enumerated before
    the others, whatever the order of creation. *)
Definition isIntegerIndex (k : jsstring) : bool :=
  match k with
  | [] => false
  | [c] => isDigit c
  | c :: _ => isDigit c && negb (c =? 48) && forallb isDigit k
  end.

(** Objects as an object literal or [JSON.parse] builds them: distinct
    keys, none of them an integer index. *)
Fixpoint plain (v : jsval) : bool :=
  match v with
  | Prim _ => true
  | Arr elems => forallb plain elems
  | Obj props =>
      forallb (fun kv => negb (isIntegerIndex (fst kv)) && plain (snd kv)) props
      && bool_decide (NoDup (List.map fst props))
  end.

(** [JSON.stringify] and [JSON.parse] between values and texts. *)
Class JSON := {
  JSON_stringify : jsval -> jsstring;
  JSON_parse : jsstring -> completion jsval
}.

(** What ECMAScript guarantees of the pair: parsing the text written for a
    value gives back the serialized value, and the empty text is a
    [SyntaxError]. *)
Class JSONLaws `{JSON} := {
  JSON_parse_stringify :
    forall v j : jsval,
      plain v = true -> SerializeJSONProperty v = Some j ->
      JSON_parse (JSON_stringify v) = Normal j;
  JSON_parse_empty : exists e, JSON_parse [] = Throw e
}.

End JS.

Import JS.

(* ===================================================================== *)
(** * The host: [localStorage] and the console                             *)
(* ===================================================================== *)

Module Host.

(** Calls made on the [Storage] object, in the order they happen. *)
Inductive StorageCall :=
  | GetItem (key : jsstring)
  | SetItem (key value : jsstring)
  | RemoveItem (key : jsstring).

Definition call_key (c : StorageCall) : jsstring :=
  match c with
  | GetItem k | SetItem k _ | RemoveItem k => k
  end.

Record Env := mkEnv {
  localStorage : gmap jsstring jsstring;
  storageCalls : list StorageCall;
  (** the argument lists of the [console.error] calls *)
  console : list (list jsval)
}.

Definition emptyEnv : Env := mkEnv ∅ [] [].

(** Computations over the host that end normally or throw. *)
Definition M (A : Type) : Type := Env -> completion A * Env.

Definition ret {A} (a : A) : M A := fun env => (Normal a, env).

Definition bind {A B} (m : M A) (k : A -> M B) : M B :=
  fun env =>
    match m env with
    | (Normal a, env') => k a env'
    | (Throw e, env') => (Throw e, env')
    end.

Definition lift {A} (c : completion A) : M A := fun env => (c, env).

(** [try { body } catch (e) { handler }] *)
Definition try_catch {A} (body : M A) (handler : jsval -> M A) : M A :=
  fun env =>
    match body env with
    | (Normal a, env') => (Normal a, env')
    | (Throw e, env') => handler e env'
    end.

Notation "'let!' x ':=' m 'in' k" := (bind m (fun x => k))
  (at level 10, x name, m at level 100, k at level 200).
Notation "m ';;' k" := (bind m (fun _ => k))
  (at level 100, k at level 200, right associativity).

(** The [Storage] interface.  The store has no quota: [setItem] always
    succeeds. *)
Definition getItem (key : jsstring) : M (option jsstring) :=
  fun env =>
    (Normal (localStorage env !! key),
     mkEnv (localStorage env) (storageCalls env ++ [GetItem key]) (console env)).

Definition setItem (key value : jsstring) : M unit :=
  fun env =>
    (Normal tt,
     mkEnv (<[key := value]> (localStorage env))
           (storageCalls env ++ [SetItem key value]) (console env)).

Definition removeItem (key : jsstring) : M unit :=
  fun env =>
    (Normal tt,
     mkEnv (delete key (localStorage env))
           (storageCalls env ++ [RemoveItem key]) (console env)).

Definition console_error (args : list jsval) : M unit :=
  fun env =>
    (Normal tt,
     mkEnv (localStorage env) (storageCalls env) (console env ++ [args])).

End Host.

Import Host.

(* ===================================================================== *)
(** * types.ts                                                             *)
(* ===================================================================== *)

Module FinancialItem.

Record t := mk {
  desc : jsstring;
  v25 : number;
  v24 : number;
  isTotal : bool;
  isGroup : bool
}.

(** The item as the object the engine holds, properties in the order of
    the interface and of the object literals that build it. *)
Definition to_js (i : t) : jsval :=
  Obj [ (js "desc", Prim (Str (desc i)));
        (js "v25", Prim (Num (v25 i)));
        (js "v24", Prim (Num (v24 i)));
        (js "isTotal", Prim (Bool (isTotal i)));
        (js "isGroup", Prim (Bool (isGroup i))) ].

End FinancialItem.

Module KPI.

(** [string | number] *)
Inductive value :=
  | Text (s : jsstring)
  | Number_ (x : number).

Definition value_prim (v : value) : prim :=
  match v with
  | Text s => Str s
  | Number_ x => Num x
  end.

Record t := mk {
  name : jsstring;
  v25 : value;
  v24 : value;
  description : jsstring;
  (** [unit?: string]: [None] when the property is absent *)
  unit : option jsstring
}.

Definition to_js (k : t) : jsval :=
  Obj ([ (js "name", Prim (Str (name k)));
         (js "v25", Prim (value_prim (v25 k)));
         (js "v24", Prim (value_prim (v24 k)));
         (js "description", Prim (Str (description k))) ]
       ++ match unit k with
          | Some u => [ (js "unit", Prim (Str u)) ]
          | None => []
          end).

End KPI.

Record DashboardData := mkDashboardData {
  ativo : list FinancialItem.t;
  passivo : list FinancialItem.t;
  kpis : list KPI.t;
  lastUpdated : jsstring
}.

Definition DashboardData_to_js (d : DashboardData) : jsval :=
  Obj [ (js "ativo", Arr (List.map FinancialItem.to_js (ativo d)));
        (js "passivo", Arr (List.map FinancialItem.to_js (passivo d)));
        (js "kpis", Arr (List.map KPI.to_js (kpis d)));
        (js "lastUpdated", Prim (Str (lastUpdated d))) ].

(** The aggregates all of whose Numbers have a JSON numeral. *)
Definition item_safe (i : FinancialItem.t) : bool :=
  json_number (FinancialItem.v25 i) && json_number (FinancialItem.v24 i).

Definition kpi_value_safe (v : KPI.value) : bool :=
  match v with
  | KPI.Text _ => true
  | KPI.Number_ x => json_number x
  end.

Definition kpi_safe (k : KPI.t) : bool :=
  kpi_value_safe (KPI.v25 k) && kpi_value_safe (KPI.v24 k).

Definition json_safe (d : DashboardData) : bool :=
  forallb item_safe (ativo d) && forallb item_safe (passivo d)
  && forallb kpi_safe (kpis d).

(* ===================================================================== *)
(** * services/database.ts                                                 *)
(* ===================================================================== *)

Module databaseService.
Section databaseService.
Context `{JSON}.

Definition STORAGE_KEY : jsstring := js "PRO_ACTIVE_DASHBOARD_DATA".

Definition saveData (data : DashboardData) : M unit :=
  setItem STORAGE_KEY (JSON_stringify (DashboardData_to_js data)).

(** The result is [JSON.parse(saved) as DashboardData]: whatever value the
    text denotes, or [null].  [!saved] holds of [null] (no such key) and of
    the empty text. *)
Definition loadData : M jsval :=
  let! saved := getItem STORAGE_KEY in
  match saved with
  | None => ret (Prim Null)
  | Some text =>
      if negb (ToBoolean (Str text)) then ret (Prim Null)
      else
        try_catch
          (lift (JSON_parse text))
          (fun e =>
             console_error [Prim (Str (js "Failed to parse saved data")); e] ;;
             ret (Prim Null))
  end.

Definition clearData : M unit :=
  removeItem STORAGE_KEY.

End databaseService.
End databaseService.

(* ===================================================================== *)
(** * services/geminiService.ts                                            *)
(* ===================================================================== *)

Module geminiService.

(** [response.text]: the generated text, or [undefined]. *)
Record GenerateContentResponse := { text : option jsstring }.

(** The [@google/genai] client and the process configuration, as the code
    meets them: a constructor, and a request whose promise is fulfilled
    with a response or rejected. *)
Class GoogleGenAI := {
  Client : Type;
  (** [process.env.API_KEY] *)
  API_KEY : option jsstring;
  (** [new GoogleGenAI({ apiKey })] *)
  new_GoogleGenAI : option jsstring -> completion Client;
  (** [await ai.models.generateContent({ model, contents })] *)
  generateContent : Client -> jsstring -> jsstring -> completion GenerateContentResponse
}.

Section geminiService.
Context `{NumberFormat} `{GoogleGenAI}.

Definition NO_INSIGHTS : jsstring :=
  js "Não foi possível gerar insights no momento.".

Definition CONNECTION_ERROR : jsstring :=
  js "Erro ao conectar com o serviço de IA. Verifique sua conexão.".

(** [`- ${k.name}: 2025 (${k.v25}) vs 2024 (${k.v24})`] *)
Definition kpi_line (k : KPI.t) : jsstring :=
  js "- " ++ KPI.name k ++ js ": 2025 (" ++ String_ (KPI.value_prim (KPI.v25 k))
  ++ js ") vs 2024 (" ++ String_ (KPI.value_prim (KPI.v24 k)) ++ js ")".

Definition prompt (ativoTotal25 passivoTotal25 : number) (kpis : list KPI.t) : jsstring :=
  js "
    Analise os seguintes dados financeiros da Pro Active para o ano de 2025 comparado a 2024:
    
    ATIVO TOTAL 2025: R$ "
  ++ Number_toLocaleString_ptBR ativoTotal25
  ++ js "
    PASSIVO TOTAL 2025: R$ "
  ++ Number_toLocaleString_ptBR passivoTotal25
  ++ js "
    
    KPIs Atuais:
    "
  ++ join (js "
") (List.map kpi_line kpis)
  ++ js "
    
    Por favor, forneça um resumo executivo em português (formato Markdown) com:
    1. Uma análise rápida da saúde financeira.
    2. Identificação de 3 pontos críticos ou de melhoria.
    3. Uma conclusão estratégica curta.
    Seja profissional e direto como um Head Controller.
  ".

Definition getFinancialInsights (data : DashboardData) : M jsstring :=
  let! ai := lift (new_GoogleGenAI API_KEY) in
  let ativoTotal25 :=
    or_zero (FinancialItem.v25 <$> List.find FinancialItem.isTotal (ativo data)) in
  let passivoTotal25 :=
    or_zero (FinancialItem.v25 <$> List.find FinancialItem.isTotal (passivo data)) in
  let prompt := prompt ativoTotal25 passivoTotal25 (kpis data) in
  try_catch
    (let! response := lift (generateContent ai (js "gemini-3-pro-preview") prompt) in
     ret (String_or (text response) NO_INSIGHTS))
    (fun error =>
       console_error [Prim (Str (js "Gemini Error:")); error] ;;
       ret CONNECTION_ERROR).

End geminiService.
End geminiService.

(* ===================================================================== *)
(** * The [App] component                                                  *)
(* ===================================================================== *)

Module App.

Import databaseService.

(** A KPI of the default table: both values are display strings, [unit]
    is absent. *)
Definition kpi (name v25 v24 description : string) : KPI.t :=
  KPI.mk (js name) (KPI.Text (js v25)) (KPI.Text (js v24)) (js description) None.

(** Fallback KPIs if none uploaded *)
Definition DEFAULT_KPIS : list KPI.t :=
  [ kpi "Liquidez Corrente" "8.42" "9.23" "Capacidade curto prazo";
    kpi "Liquidez Seca" "5.26" "4.84" "Sem estoques";
    kpi "ROI" "18.6%" "22.1%" "Retorno s/ Ativo";
    kpi "Endividamento" "11.8%" "10.8%" "Exigível / Ativo";
    kpi "Giro do Ativo" "1.15" "1.08" "Eficiência vendas";
    kpi "Margem Bruta" "42.5%" "40.2%" "Resultado bruto";
    kpi "Margem Líquida" "15.2%" "14.8%" "Lucro / Receita";
    kpi "ROE" "21.4%" "24.5%" "Retorno s/ PL" ].

(** The character class of [/[R$\.\s]/g]. *)
Definition moeda_class (c : N) : bool :=
  (c =? 82) || (c =? 36) || (c =? 46) || isWhiteSpace c.

(** [valor.toString().replace(/[R$\.\s]/g, '').replace(',', '.')] *)
Definition clean (text : jsstring) : jsstring :=
  replace_first (js ",") (js ".") (replaceAll_class moeda_class [] text).

Definition parseMoeda (valor : prim) : number :=
  if negb (ToBoolean valor) then zero
  else
    match valor with
    | Num x => x
    | Str s => Number_or (parseFloat (clean s)) zero
    | Bool b => Number_or (parseFloat (clean (Boolean_toString b))) zero
    | Undefined | Null => zero (* falsy: never reaches [toString] *)
    end.

(** [row[i]]: [undefined] for a hole and past the end of the row. *)
Definition at_ (row : list prim) (i : nat) : prim :=
  default Undefined (row !! i).

(** [arr.push(x)] *)
Definition push {A} (arr : list A) (x : A) : list A := arr ++ [x].

(** [arr.forEach((x, idx) => ...)], the callback acting on a state. *)
Fixpoint forEach_from {A St} (callback : A -> nat -> St -> St)
    (idx : nat) (arr : list A) (st : St) : St :=
  match arr with
  | [] => st
  | x :: arr' => forEach_from callback (S idx) arr' (callback x idx st)
  end.

Definition forEach {A St} (callback : A -> nat -> St -> St) (arr : list A) (st : St) : St :=
  forEach_from callback 0%nat arr st.

Section parser.
Context `{NumberFormat} `{CaseMapping}.

(** The callback of [rows.forEach]; the state is the pair of arrays
    [nA], [nP] it pushes to. *)
Definition row_callback (row : list prim) (idx : nat)
    (st : list FinancialItem.t * list FinancialItem.t)
    : list FinancialItem.t * list FinancialItem.t :=
  if (idx =? 0)%nat then st
  else
    let '(nA, nP) := st in
    let nA :=
      if ToBoolean (at_ row 0) then
        let desc := String_ (at_ row 0) in
        push nA
          {| FinancialItem.desc := desc;
             FinancialItem.v25 := parseMoeda (at_ row 1);
             FinancialItem.v24 := parseMoeda (at_ row 2);
             FinancialItem.isTotal := includes (js "total") (toLowerCase desc);
             FinancialItem.isGroup := includes (js "circulante") (toLowerCase desc) |}
      else nA in
    let nP :=
      if ToBoolean (at_ row 4) then
        let desc := String_ (at_ row 4) in
        push nP
          {| FinancialItem.desc := desc;
             FinancialItem.v25 := parseMoeda (at_ row 5);
             FinancialItem.v24 := parseMoeda (at_ row 6);
             FinancialItem.isTotal := includes (js "total") (toLowerCase desc);
             FinancialItem.isGroup :=
               includes (js "circulante") (toLowerCase desc)
               || includes (js "líquido") (toLowerCase desc) |}
      else nP in
    (nA, nP).

(** The two arrays once [rows.forEach] has run. *)
Definition parse_rows (rows : list (list prim))
    : list FinancialItem.t * list FinancialItem.t :=
  forEach row_callback rows ([], []).

(** [reader.onload] of [handleFileUpload]: [rows] is what [sheet_to_json]
    returned for the first sheet, [now] is [new Date().toISOString()].  The
    result is the [newData] handed to [setData] and to [saveData]. *)
Definition handleFileUpload `{JSON} (rows : list (list prim)) (now : jsstring)
    : M DashboardData :=
  let '(nA, nP) := parse_rows rows in
  let newData :=
    {| ativo := nA; passivo := nP; kpis := DEFAULT_KPIS; lastUpdated := now |} in
  saveData newData ;;
  ret newData.

End parser.

Record Totals := mkTotals { a25 : number; a24 : number; p25 : number; p24 : number }.

Definition totals (data : option DashboardData) : Totals :=
  match data with
  | None => mkTotals zero zero zero zero
  | Some data =>
      let atv := List.find FinancialItem.isTotal (ativo data) in
      let pas := List.find FinancialItem.isTotal (passivo data) in
      {| a25 := or_zero (FinancialItem.v25 <$> atv);
         a24 := or_zero (FinancialItem.v24 <$> atv);
         p25 := or_zero (FinancialItem.v25 <$> pas);
         p24 := or_zero (FinancialItem.v24 <$> pas) |}
  end.

End App.

(* ===================================================================== *)
(** * A reference engine                                                   *)
(* ===================================================================== *)

(** Instances of the engine interfaces, on which the examples run and
    which show the interface laws to be satisfiable. *)

Module Reference.

(** ** Case mapping: Basic Latin and Latin-1 Supplement *)

Definition caseMapping : CaseMapping := List.map latin1_lower.

(** ** Number formatting *)

Fixpoint digits_fuel (fuel : nat) (n : N) (acc : list N) : list N :=
  match fuel with
  | O => acc
  | S fuel' =>
      let acc' := (48 + n mod 10) :: acc in
      if n <? 10 then acc' else digits_fuel fuel' (n / 10) acc'
  end.

Definition decimal_digits (n : N) : list N :=
  digits_fuel (S (N.to_nat (N.log2 n))) n [].

(** The magnitude [m * 2^e] of a finite Number as a fraction. *)
Definition magnitude (m : positive) (e : Z) : N * N :=
  match e with
  | Zneg k => (Npos m, 2 ^ Npos k)
  | _ => (Npos m * 2 ^ Z.to_N e, 1)
  end.

Fixpoint fraction_digits (fuel : nat) (r den : N) : list N :=
  match fuel with
  | O => []
  | S fuel' =>
      if r =? 0 then []
      else (48 + (10 * r) / den) :: fraction_digits fuel' ((10 * r) mod den) den
  end.

Definition minus (s : bool) : jsstring := if s then js "-" else [].

(** The exact decimal expansion of the Number.  It is the text of
    [Number::toString] for the integral Numbers below [2^53]; for the other
    Numbers the engine stops at the shortest expansion that reads back as
    the same Number. *)
Definition exact_decimal (x : number) : jsstring :=
  match x with
  | S754_nan => js "NaN"
  | S754_infinity s => minus s ++ js "Infinity"
  | S754_zero _ => js "0"
  | S754_finite s m e =>
      let '(num, den) := magnitude m e in
      let fr := fraction_digits (N.to_nat (N.log2 den)) (num mod den) den in
      minus s ++ decimal_digits (num / den)
      ++ match fr with [] => [] | _ => 46 :: fr end
  end.

(** Groups of three digits from the right, separated by a period. *)
Fixpoint group3 (rev_digits : list N) : list N :=
  match rev_digits with
  | a :: b :: c :: ((_ :: _) as r) => a :: b :: c :: 46 :: group3 r
  | _ => rev_digits
  end.

Definition thousandths (fp : N) : list N :=
  let d := decimal_digits (1000 + fp) in
  match d with
  | [_; a; b; c] =>
      if negb (c =? 48) then [a; b; c]
      else if negb (b =? 48) then [a; b] else [a]
  | _ => []
  end.

(** The [pt-BR] decimal style: grouping by periods, a decimal comma and at
    most three fraction digits, rounded half away from zero. *)
Definition decimal_ptBR (x : number) : jsstring :=
  match x with
  | S754_nan => js "NaN"
  | S754_infinity s => minus s ++ js "∞"
  | S754_zero s => minus s ++ js "0"
  | S754_finite s m e =>
      let '(num, den) := magnitude m e in
      let r := (2000 * num + den) / (2 * den) in
      minus s ++ rev (group3 (rev (decimal_digits (r / 1000))))
      ++ (if r mod 1000 =? 0 then [] else 44 :: thousandths (r mod 1000))
  end.

Definition numberFormat : NumberFormat :=
  {| Number_toString := exact_decimal;
     Number_toLocaleString_ptBR := decimal_ptBR |}.

(** ** JSON *)

(** An error object, by its name and message. *)
Definition Error (name message : string) : jsval :=
  Obj [ (js "name", Prim (Str (js name)));
        (js "message", Prim (Str (js message))) ].

(** A codec that obeys [JSONLaws].  The text it writes is a numbering of the
    serialized value, not JSON syntax: the theorems use the laws only, and
    hold of the engine's own [JSON] as of this one. *)

Fixpoint to_tree (v : jsval) : gen_tree prim :=
  match v with
  | Prim p => GenLeaf p
  | Arr elems => GenNode 0 (List.map to_tree elems)
  | Obj props =>
      GenNode 1 (List.map (fun kv => GenNode 2 [GenLeaf (Str (fst kv)); to_tree (snd kv)])
                   props)
  end.

Fixpoint of_tree (t : gen_tree prim) : option jsval :=
  match t with
  | GenLeaf p => Some (Prim p)
  | GenNode 0 ts => Arr <$> mapM of_tree ts
  | GenNode 1 ts =>
      Obj <$> mapM (fun t =>
                match t with
                | GenNode 2 [GenLeaf (Str k); t'] => pair k <$> of_tree t'
                | _ => None
                end) ts
  | GenNode _ _ => None
  end.

Fixpoint bits (p : positive) : list N :=
  match p with
  | xH => []
  | xO p' => 48 :: bits p'
  | xI p' => 49 :: bits p'
  end.

Fixpoint unbits (s : list N) : option positive :=
  match s with
  | [] => Some xH
  | c :: s' =>
      if c =? 48 then xO <$> unbits s'
      else if c =? 49 then xI <$> unbits s'
      else None
  end.

#[local] Instance spec_float_eq_dec : EqDecision spec_float.
Proof. solve_decision. Defined.

#[local] Instance prim_eq_dec : EqDecision prim.
Proof. solve_decision. Defined.

#[local] Instance spec_float_countable : Countable spec_float.
Proof.
  refine (inj_countable'
    (fun x => match x with
              | S754_zero s => inl s
              | S754_infinity s => inr (inl s)
              | S754_nan => inr (inr (inl ()))
              | S754_finite s m e => inr (inr (inr (s, m, e)))
              end)
    (fun y => match y with
              | inl s => S754_zero s
              | inr (inl s) => S754_infinity s
              | inr (inr (inl _)) => S754_nan
              | inr (inr (inr (s, m, e))) => S754_finite s m e
              end) _).
  intros []; reflexivity.
Defined.

#[local] Instance prim_countable : Countable prim.
Proof.
  refine (inj_countable'
    (fun p => match p with
              | Undefined => inl false
              | Null => inl true
              | Bool b => inr (inl b)
              | Num x => inr (inr (inl x))
              | Str s => inr (inr (inr s))
              end)
    (fun y => match y with
              | inl false => Undefined
              | inl true => Null
              | inr (inl b) => Bool b
              | inr (inr (inl x)) => Num x
              | inr (inr (inr s)) => Str s
              end) _).
  intros []; reflexivity.
Defined.

Definition write (j : jsval) : jsstring := 35 :: bits (encode (to_tree j)).

Definition read (text : jsstring) : option jsval :=
  match text with
  | 35 :: s =>
      p ← unbits s;
      t ← (decode p : option (gen_tree prim));
      of_tree t
  | _ => None
  end.

Definition json : JSON :=
  {| JSON_stringify v :=
       match SerializeJSONProperty v with
       | Some j => write j
       | None => js "undefined"
       end;
     JSON_parse text :=
       match read text with
       | Some j => Normal j
       | None => Throw (Error "SyntaxError" "Unexpected token")
       end |}.

(** ** The [@google/genai] client in a browser *)

(** The constructor of the browser build refuses a missing key; [reply]
    is what the service answers to the prompt. *)
Definition browser_sdk (key : option jsstring)
    (reply : jsstring -> completion geminiService.GenerateContentResponse)
    : geminiService.GoogleGenAI :=
  {| geminiService.Client := jsstring;
     geminiService.API_KEY := key;
     geminiService.new_GoogleGenAI k :=
       match k with
       | Some k => Normal k
       | None => Throw (Error "Error" "An API Key must be set when running in a browser")
       end;
     geminiService.generateContent _ _ contents := reply contents |}.

End Reference.

(* ===================================================================== *)
(** * The parser, said row by row                                          *)
(* ===================================================================== *)

(** What one row of the sheet contributes to each list, in the words of
    the parser's description: an asset item from columns 0, 1 and 2 when
    column 0 is not falsy, a liability item from columns 4, 5 and 6 when
    column 4 is not falsy. *)
Module Mapper.
Section Mapper.
Context `{NumberFormat} `{CaseMapping}.

Definition contains (word : string) (desc : jsstring) : bool :=
  includes (js word) (toLowerCase desc).

Definition asset_item (row : list prim) : option FinancialItem.t :=
  if ToBoolean (App.at_ row 0) then
    let desc := String_ (App.at_ row 0) in
    Some (FinancialItem.mk desc
            (App.parseMoeda (App.at_ row 1)) (App.parseMoeda (App.at_ row 2))
            (contains "total" desc) (contains "circulante" desc))
  else None.

Definition liability_item (row : list prim) : option FinancialItem.t :=
  if ToBoolean (App.at_ row 4) then
    let desc := String_ (App.at_ row 4) in
    Some (FinancialItem.mk desc
            (App.parseMoeda (App.at_ row 5)) (App.parseMoeda (App.at_ row 6))
            (contains "total" desc)
            (contains "circulante" desc || contains "líquido" desc))
  else None.

End Mapper.
End Mapper.

(** Uses of the persistence adapter, one after the other. *)
Module Adapter.
Section Adapter.
Context `{JSON}.

Inductive operation :=
  | SaveData (data : DashboardData)
  | LoadData
  | ClearData.

Definition perform (op : operation) (env : Env) : Env :=
  match op with
  | SaveData data => snd (databaseService.saveData data env)
  | LoadData => snd (databaseService.loadData env)
  | ClearData => snd (databaseService.clearData env)
  end.

Definition perform_all (ops : list operation) (env : Env) : Env :=
  fold_left (fun env op => perform op env) ops env.

End Adapter.
End Adapter.

(** The prompt of a request, as [getFinancialInsights] builds it. *)
Module Requester.
Section Requester.
Context `{NumberFormat}.

(** The totals come from the first total rows, [0] standing for a list
    without one. *)
Definition prompt_of (data : DashboardData) : jsstring :=
  geminiService.prompt
    (or_zero (FinancialItem.v25 <$> List.find FinancialItem.isTotal (ativo data)))
    (or_zero (FinancialItem.v25 <$> List.find FinancialItem.isTotal (passivo data)))
    (kpis data).

End Requester.
End Requester.

(* ===================================================================== *)
(** * The [App] component: state, effects and the balance table           *)
(* ===================================================================== *)

Module Dashboard.

(** [ViewMode] and [TabMode] of [types.ts] *)
Inductive ViewMode := COMPARATIVO | Only2025 | Only2024.
Inductive TabMode := balanco | indicadores | insights.

(** The [useState] cells of [App] that the handlers write. *)
Record State := mkState {
  data : option DashboardData;
  viewMode : ViewMode;
  activeTab : TabMode;
  isAiLoading : bool;
  aiInsights : jsstring
}.

Definition initial : State := mkState None COMPARATIVO balanco false [].

(** [ToBoolean] on a value: arrays and objects are truthy. *)
Definition ToBoolean_value (v : jsval) : bool :=
  match v with
  | Prim p => ToBoolean p
  | Arr _ | Obj _ => true
  end.

(** The effect that runs on mount: [Some savedData] when [setData(savedData)]
    is called, [None] when the state keeps its [null]. *)
Definition load_initial_data `{JSON} : M (option jsval) :=
  let! savedData := databaseService.loadData in
  ret (if ToBoolean_value savedData then Some savedData else None).

(** [reader.onload] of [handleFileUpload], on the state: [setData(newData)],
    [saveData(newData)], [setAiInsights('')]. *)
Definition onload `{NumberFormat} `{CaseMapping} `{JSON}
    (rows : list (list prim)) (now : jsstring) (st : State) : M State :=
  let! newData := App.handleFileUpload rows now in
  ret (mkState (Some newData) (viewMode st) (activeTab st) (isAiLoading st) []).

(** [handleReset]; [confirmed] is what [confirm(...)] returned. *)
Definition handleReset `{JSON} (confirmed : bool) (st : State) : M State :=
  if confirmed then
    databaseService.clearData ;;
    ret (mkState None (viewMode st) (activeTab st) (isAiLoading st) [])
  else ret st.

(** [generateInsights].  The state cells outlive a rejected promise, so the
    state is returned beside the completion. *)
Definition generateInsights `{NumberFormat} `{geminiService.GoogleGenAI}
    (st : State) (env : Env) : completion unit * State * Env :=
  match data st with
  | None => (Normal tt, st, env)
  | Some d =>
      let loading := mkState (data st) (viewMode st) (activeTab st) true (aiInsights st) in
      match geminiService.getFinancialInsights d env with
      | (Normal result, env') =>
          (Normal tt, mkState (data st) (viewMode st) insights false result, env')
      | (Throw e, env') => (Throw e, loading, env')
      end
  end.

(** [disabled={!data || isAiLoading}] of the insights button *)
Definition insights_disabled (st : State) : bool :=
  negb (bool_decide (is_Some (data st))) || isAiLoading st.

(** Binary64 arithmetic *)
Definition div (x y : number) : number := SFdiv prec emax x y.
Definition sub (x y : number) : number := SFsub prec emax x y.
Definition mul (x y : number) : number := SFmul prec emax x y.

(** [x >= 0] *)
Definition ge_zero (x : number) : bool := SFleb zero x.

(** [BalanceTable]: [item.v24 ? (((item.v25 / item.v24) - 1) * 100) : 0] *)
Definition ah (item : FinancialItem.t) : number :=
  if Number_truthy (FinancialItem.v24 item) then
    mul (sub (div (FinancialItem.v25 item) (FinancialItem.v24 item)) (Number_of_N 1))
        (Number_of_N 100)
  else zero.

End Dashboard.

(* ===================================================================== *)
(** * Example data                                                         *)
(* ===================================================================== *)

(** A small sheet: a header, two asset rows and three liability rows, with
    a total row in each list. *)
Definition sample_rows : list (list prim) :=
  [ [ Str (js "ATIVO"); Str (js "2025"); Str (js "2024"); Undefined;
      Str (js "PASSIVO"); Str (js "2025"); Str (js "2024") ];
    [ Str (js "Caixa"); Num (Number_of_N 100); Num (Number_of_N 50); Undefined;
      Str (js "Fornecedores"); Num (Number_of_N 40); Num (Number_of_N 30) ];
    [ Str (js "Total do Ativo"); Str (js "R$ 1.000,00"); Str (js "900"); Undefined;
      Str (js "Patrimônio Líquido"); Num (Number_of_N 960); Num (Number_of_N 870) ];
    [ Undefined; Undefined; Undefined; Undefined;
      Str (js "TOTAL DO PASSIVO"); Num (Number_of_N 1000); Num (Number_of_N 900) ] ].

(** A list whose only total row carries [NaN] and [-0]. *)
Definition nan_total : DashboardData :=
  {| ativo := [ FinancialItem.mk (js "Caixa") (Number_of_N 100) (Number_of_N 50) false false;
                FinancialItem.mk (js "Total do Ativo") NaN (S754_zero true) true false ];
     passivo := [];
     kpis := [];
     lastUpdated := js "2025-01-01T00:00:00.000Z" |}.

(** A sheet whose only value overflows binary64. *)
Definition overflow_rows : list (list prim) :=
  [ [ Str (js "ATIVO"); Str (js "2025"); Str (js "2024") ];
    [ Str (js "Caixa"); Str (js "1e999"); Num (Number_of_N 80) ] ].

Definition overflow_data : DashboardData :=
  {| ativo := [ FinancialItem.mk (js "Caixa") Infinity (Number_of_N 80) false false ];
     passivo := [];
     kpis := App.DEFAULT_KPIS;
     lastUpdated := js "2025-01-01T00:00:00.000Z" |}.

(** An aggregate with no rows. *)
Definition empty_data : DashboardData :=
  {| ativo := []; passivo := []; kpis := App.DEFAULT_KPIS;
     lastUpdated := js "2025-01-01T00:00:00.000Z" |}.

(** A store holding a text that is not JSON under the adapter's key, and a
    key of another component. *)
Definition corrupt_env : Env :=
  mkEnv (<[databaseService.STORAGE_KEY := js "{oops"]> {[ js "theme" := js "dark" ]})
        [] [].

(* ===================================================================== *)
(** * Properties                                                           *)
(* ===================================================================== *)

(** ** Induction on values *)

Lemma jsval_ind (P : jsval -> Prop)
    (HPrim : forall p, P (Prim p))
    (HArr : forall elems, Forall P elems -> P (Arr elems))
    (HObj : forall props, Forall (fun kv => P (snd kv)) props -> P (Obj props)) :
  forall v, P v.
Proof.
  fix IH 1. intros [p|elems|props].
  - apply HPrim.
  - apply HArr. induction elems as [|e elems IHelems]; constructor; [apply IH | exact IHelems].
  - apply HObj. induction props as [|[k e] props IHprops]; constructor;
      [apply IH | exact IHprops].
Qed.

(** ** Strings *)

Lemma startsWith_prefix (needle hay : jsstring) :
  startsWith needle hay = true <-> exists post, hay = needle ++ post.
Proof.
  revert hay. induction needle as [|a needle IH]; intros hay; simpl.
  - split; [intros _; exists hay; reflexivity | reflexivity].
  - destruct hay as [|b hay].
    + split; [discriminate | intros [post Hp]; discriminate Hp].
    + rewrite andb_true_iff, N.eqb_eq, IH. split.
      * intros [-> [post ->]]. exists post. reflexivity.
      * intros [post Hp]. injection Hp as -> ->. split; [reflexivity | eauto].
Qed.

(** [includes] finds exactly the contiguous occurrences. *)
Lemma includes_substring (needle hay : jsstring) :
  includes needle hay = true <-> exists pre post, hay = pre ++ needle ++ post.
Proof.
  induction hay as [|b hay IH].
  - simpl. rewrite orb_false_r, startsWith_prefix. split.
    + intros [post Hp]. exists [], post. exact Hp.
    + intros [pre [post Hp]]. destruct pre; [eauto | discriminate Hp].
  - cbn [includes]. rewrite orb_true_iff, startsWith_prefix, IH. split.
    + intros [[post Hp] | [pre [post Hp]]].
      * exists [], post. exact Hp.
      * exists (b :: pre), post. rewrite Hp. reflexivity.
    + intros [[|c pre] [post Hp]].
      * left. exists post. exact Hp.
      * right. injection Hp as _ Hp. eauto.
Qed.

(** Replacing a class by the empty string removes its code units. *)
Lemma replaceAll_class_remove (cls : N -> bool) (s : jsstring) :
  replaceAll_class cls [] s = List.filter (fun c => negb (cls c)) s.
Proof.
  induction s as [|c s IH]; simpl; [reflexivity|].
  rewrite IH. destruct (cls c); reflexivity.
Qed.

(** ** [parseFloat] on sample texts *)

(** The values are those an engine returns: the longest numeric prefix is
    read, the decimal is rounded to the nearest binary64 value (ties to
    even), and a text without a numeric prefix gives [NaN]. *)
Example parseFloat_samples :
  parseFloat (js "3.14abc") = S754_finite false 7070651414971679 (-51)
  /\ parseFloat (js ".5") = S754_finite false 4503599627370496 (-53)
  /\ parseFloat (js "  1e3") = S754_finite false 8796093022208000 (-43)
  /\ parseFloat (js "-12.5e-3") = S754_finite true 7205759403792794 (-59)
  /\ parseFloat (js "0.30000000000000004") = S754_finite false 5404319552844596 (-54)
  /\ parseFloat (js "9007199254740993") = S754_finite false 4503599627370496 1
  /\ parseFloat (js "123456789012345678901234567890") =
       S754_finite false 7017705969039166 44
  /\ parseFloat (js "2.2250738585072014e-308") = S754_finite false 4503599627370496 (-1074)
  /\ parseFloat (js "4.9e-324") = S754_finite false 1 (-1074)
  /\ parseFloat (js "1.7976931348623157e308") = S754_finite false 9007199254740991 971
  /\ parseFloat (js "1e999") = Infinity
  /\ parseFloat (js "-Infinity") = S754_infinity true
  /\ parseFloat (js "1e-999") = zero
  /\ parseFloat (js "-0") = S754_zero true
  /\ parseFloat (js "1.") = parseFloat (js "1")
  /\ parseFloat (js "1e+") = parseFloat (js "1")
  /\ parseFloat (js "1,5") = parseFloat (js "1")
  /\ parseFloat (js ".") = NaN
  /\ parseFloat (js "e5") = NaN
  /\ parseFloat (js "R$ 10") = NaN
  /\ parseFloat (js "") = NaN.
Proof. repeat split; vm_compute; reflexivity. Qed.

(** ** The monetary parser *)


Lemma parseMoeda_number (x : number) :
  Number_truthy x = true -> App.parseMoeda (Num x) = x.
Proof. intros Ht. unfold App.parseMoeda. cbn [ToBoolean]. rewrite Ht. reflexivity. Qed.

Lemma parseMoeda_text (text : jsstring) :
  text <> [] ->
  App.parseMoeda (Str text) =
    Number_or
      (parseFloat
         (replace_first (js ",") (js ".")
            (List.filter (fun c => negb (App.moeda_class c)) text)))
      zero.
Proof.
  intros Hne. unfold App.parseMoeda, App.clean. cbn [ToBoolean].
  rewrite bool_decide_eq_false_2 by exact Hne. cbn [negb].
  rewrite replaceAll_class_remove. reflexivity.
Qed.

(** The binary64 value printed [1234.56] lies within half a unit in the
    last place ([2^-43]) of the decimal [123456/100]. *)
Example nearest_1234_56 :
  Number_of_decimal false 123456 (-2) = S754_finite false 5429652300748554 (-42)
  /\ (2 * Z.abs (100 * 5429652300748554 - 123456 * 2 ^ 42) <= 100)%Z.
Proof. split; [vm_compute; reflexivity | vm_compute; discriminate]. Qed.




(** ** The parser *)

Section parser_properties.
Context `{NF : NumberFormat} `{CM : CaseMapping}.

Lemma row_callback_data (row : list prim) (idx : nat)
    (nA nP : list FinancialItem.t) :
  App.row_callback row (S idx) (nA, nP) =
    (nA ++ option_list (Mapper.asset_item row),
     nP ++ option_list (Mapper.liability_item row)).
Proof.
  unfold App.row_callback, Mapper.asset_item, Mapper.liability_item, App.push.
  cbn [Nat.eqb].
  destruct (ToBoolean (App.at_ row 0)), (ToBoolean (App.at_ row 4));
    cbn [option_list]; rewrite ?app_nil_r; reflexivity.
Qed.

Lemma forEach_from_data (rows : list (list prim)) (idx : nat)
    (nA nP : list FinancialItem.t) :
  App.forEach_from App.row_callback (S idx) rows (nA, nP) =
    (nA ++ omap Mapper.asset_item rows, nP ++ omap Mapper.liability_item rows).
Proof.
  revert idx nA nP. induction rows as [|row rows IH]; intros idx nA nP.
  - cbn. rewrite !app_nil_r. reflexivity.
  - cbn [App.forEach_from]. rewrite row_callback_data, IH.
    rewrite <- !app_assoc. cbn [omap list_omap].
    destruct (Mapper.asset_item row), (Mapper.liability_item row); reflexivity.
Qed.

Lemma parse_rows_omap (rows : list (list prim)) :
  App.parse_rows rows =
    (omap Mapper.asset_item (drop 1 rows), omap Mapper.liability_item (drop 1 rows)).
Proof.
  unfold App.parse_rows, App.forEach. destruct rows as [|header rows].
  - reflexivity.
  - cbn [App.forEach_from]. unfold App.row_callback at 2. cbn [Nat.eqb].
    rewrite forEach_from_data. reflexivity.
Qed.

(** C2.  The header row is dropped whatever it holds; each later row
    contributes, in turn, an asset item built from its columns 0, 1 and 2
    exactly when column 0 is not falsy and, independently, a liability item
    built from its columns 4, 5 and 6 exactly when column 4 is not falsy. *)
Theorem parse_rows_spec (header : list prim) (rows : list (list prim)) :
  App.parse_rows (header :: rows) =
    (omap Mapper.asset_item rows, omap Mapper.liability_item rows)
  /\ App.parse_rows [] = ([], [])
  /\ (forall row,
        Mapper.asset_item row =
          if ToBoolean (App.at_ row 0) then
            Some {| FinancialItem.desc := String_ (App.at_ row 0);
                    FinancialItem.v25 := App.parseMoeda (App.at_ row 1);
                    FinancialItem.v24 := App.parseMoeda (App.at_ row 2);
                    FinancialItem.isTotal :=
                      includes (js "total") (toLowerCase (String_ (App.at_ row 0)));
                    FinancialItem.isGroup :=
                      includes (js "circulante") (toLowerCase (String_ (App.at_ row 0))) |}
          else None)
  /\ (forall row,
        Mapper.liability_item row =
          if ToBoolean (App.at_ row 4) then
            Some {| FinancialItem.desc := String_ (App.at_ row 4);
                    FinancialItem.v25 := App.parseMoeda (App.at_ row 5);
                    FinancialItem.v24 := App.parseMoeda (App.at_ row 6);
                    FinancialItem.isTotal :=
                      includes (js "total") (toLowerCase (String_ (App.at_ row 4)));
                    FinancialItem.isGroup :=
                      includes (js "circulante") (toLowerCase (String_ (App.at_ row 4)))
                      || includes (js "líquido") (toLowerCase (String_ (App.at_ row 4))) |}
          else None)
  /\ App.parse_rows
       [ header;
         [ Str (js "Caixa"); Num (Number_of_N 100); Num (Number_of_N 80); Undefined;
           Str (js "Fornecedores"); Num (Number_of_N 40); Num (Number_of_N 30) ];
         [ Undefined; Undefined; Undefined; Undefined; Str (js "Capital") ];
         [ Str (js "Bancos"); Str (js "R$ 1.234,56") ];
         [] ] =
     ( [ FinancialItem.mk (js "Caixa") (Number_of_N 100) (Number_of_N 80)
           (includes (js "total") (toLowerCase (js "Caixa")))
           (includes (js "circulante") (toLowerCase (js "Caixa")));
         FinancialItem.mk (js "Bancos") (Number_of_decimal false 123456 (-2)) zero
           (includes (js "total") (toLowerCase (js "Bancos")))
           (includes (js "circulante") (toLowerCase (js "Bancos"))) ],
       [ FinancialItem.mk (js "Fornecedores") (Number_of_N 40) (Number_of_N 30)
           (includes (js "total") (toLowerCase (js "Fornecedores")))
           (includes (js "circulante") (toLowerCase (js "Fornecedores"))
            || includes (js "líquido") (toLowerCase (js "Fornecedores")));
         FinancialItem.mk (js "Capital") zero zero
           (includes (js "total") (toLowerCase (js "Capital")))
           (includes (js "circulante") (toLowerCase (js "Capital"))
            || includes (js "líquido") (toLowerCase (js "Capital"))) ] ).
Proof.
  split; [apply (parse_rows_omap (header :: rows))|].
  split; [reflexivity|].
  split; [reflexivity|].
  split; [reflexivity|].
  rewrite parse_rows_omap. reflexivity.
Qed.

(** C3.  On every emitted item [isTotal] holds exactly when the lowercased
    description contains [total]; [isGroup] holds exactly when it contains
    [circulante] for an asset, [circulante] or [líquido] for a liability.
    Letters are compared after [toLowerCase] only, accents are kept:
    ["Total do Ativo Circulante"] is a total row and a group header at once,
    ["PATRIMÔNIO LÍQUIDO"] is a group header, ["Patrimonio Liquido"] is
    not, ["Tótal"] is not a total row. *)
Theorem classification_spec `{!CaseMappingLatin1} (rows : list (list prim)) :
  (forall item, item ∈ fst (App.parse_rows rows) ->
     (FinancialItem.isTotal item = true <->
        exists pre post,
          toLowerCase (FinancialItem.desc item) = pre ++ js "total" ++ post)
     /\ (FinancialItem.isGroup item = true <->
          exists pre post,
            toLowerCase (FinancialItem.desc item) = pre ++ js "circulante" ++ post))
  /\ (forall item, item ∈ snd (App.parse_rows rows) ->
       (FinancialItem.isTotal item = true <->
          exists pre post,
            toLowerCase (FinancialItem.desc item) = pre ++ js "total" ++ post)
       /\ (FinancialItem.isGroup item = true <->
            (exists pre post,
               toLowerCase (FinancialItem.desc item) = pre ++ js "circulante" ++ post)
            \/ (exists pre post,
                  toLowerCase (FinancialItem.desc item) = pre ++ js "líquido" ++ post)))
  /\ App.parse_rows
       [ []; [ Str (js "Total do Ativo Circulante"); Undefined; Undefined; Undefined;
               Str (js "PATRIMÔNIO LÍQUIDO") ];
             [ Str (js "Tótal"); Undefined; Undefined; Undefined;
               Str (js "Patrimonio Liquido") ] ] =
     ( [ FinancialItem.mk (js "Total do Ativo Circulante") zero zero true true;
         FinancialItem.mk (js "Tótal") zero zero false false ],
       [ FinancialItem.mk (js "PATRIMÔNIO LÍQUIDO") zero zero false true;
         FinancialItem.mk (js "Patrimonio Liquido") zero zero false false ] ).
Proof.
  rewrite parse_rows_omap. cbn [fst snd]. split; [|split].
  - intros item [row [_ Hrow]]%list_elem_of_omap.
    unfold Mapper.asset_item in Hrow.
    destruct (ToBoolean (App.at_ row 0)); [|discriminate].
    injection Hrow as <-. cbn [FinancialItem.isTotal FinancialItem.isGroup FinancialItem.desc].
    unfold Mapper.contains. rewrite <- !includes_substring. tauto.
  - intros item [row [_ Hrow]]%list_elem_of_omap.
    unfold Mapper.liability_item in Hrow.
    destruct (ToBoolean (App.at_ row 4)); [|discriminate].
    injection Hrow as <-. cbn [FinancialItem.isTotal FinancialItem.isGroup FinancialItem.desc].
    unfold Mapper.contains. rewrite orb_true_iff, <- !includes_substring. tauto.
  - pose proof toLowerCase_latin1 as Hlower. unfold toLowerCase in Hlower.
    rewrite parse_rows_omap. vm_compute.
    rewrite !Hlower by (vm_compute; reflexivity).
    vm_compute. reflexivity.
Qed.

Lemma find_first {A} (P : A -> bool) (l1 l2 : list A) (x : A) :
  Forall (fun y => P y = false) l1 -> P x = true ->
  List.find P (l1 ++ x :: l2) = Some x.
Proof.
  intros Hl1 Hx. induction Hl1 as [|y l1 Hy _ IH]; cbn.
  - rewrite Hx. reflexivity.
  - rewrite Hy. exact IH.
Qed.

Lemma lookup_split_two {A} (l : list A) (i j : nat) (a b : A) :
  (i < j)%nat -> l !! i = Some a -> l !! j = Some b ->
  exists l1 l2 l3, l = l1 ++ a :: l2 ++ b :: l3 /\ length l1 = i.
Proof.
  intros Hij Ha Hb.
  pose proof (take_drop_middle l i a Ha) as Hl.
  assert (Hb' : drop (S i) l !! (j - S i)%nat = Some b).
  { rewrite lookup_drop. replace (S i + (j - S i))%nat with j by lia. exact Hb. }
  pose proof (take_drop_middle _ _ _ Hb') as Hd.
  exists (take i l), (take (j - S i) (drop (S i) l)), (drop (S (j - S i)) (drop (S i) l)).
  split.
  - rewrite Hd. symmetry. exact Hl.
  - apply length_take_le. apply lookup_lt_Some in Ha. lia.
Qed.

Lemma omap_after_header {B} (f : list prim -> option B)
    (l1 l2 : list (list prim)) :
  (1 <= length l1)%nat ->
  omap f (drop 1 (l1 ++ l2)) = omap f (drop 1 l1) ++ omap f l2.
Proof.
  intros Hlen. rewrite drop_app_le by exact Hlen. apply omap_app.
Qed.

Lemma emitted_in_order {B} (f : list prim -> option B) (rows : list (list prim))
    (i j : nat) (ri rj : list prim) (x y : B) :
  (1 <= i)%nat -> (i < j)%nat ->
  rows !! i = Some ri -> rows !! j = Some rj ->
  f ri = Some x -> f rj = Some y ->
  exists l1 l2 l3, omap f (drop 1 rows) = l1 ++ x :: l2 ++ y :: l3.
Proof.
  intros Hi Hij Hri Hrj Hx Hy.
  destruct (lookup_split_two rows i j ri rj Hij Hri Hrj) as (r1 & r2 & r3 & -> & Hlen).
  rewrite omap_after_header by lia.
  cbn [omap list_omap]. rewrite Hx. fold (omap f (r2 ++ rj :: r3)).
  rewrite omap_app. cbn [omap list_omap]. rewrite Hy. fold (omap f r3).
  exists (omap f (drop 1 r1)), (omap f r2), (omap f r3). reflexivity.
Qed.

Lemma earliest_is_found {B} (f : list prim -> option B) (P : B -> bool)
    (rows : list (list prim)) (i : nat) (ri : list prim) (x : B) :
  (1 <= i)%nat -> rows !! i = Some ri -> f ri = Some x -> P x = true ->
  (forall j rj y, (1 <= j < i)%nat -> rows !! j = Some rj -> f rj = Some y -> P y = false) ->
  List.find P (omap f (drop 1 rows)) = Some x.
Proof.
  intros Hi Hri Hx HPx Hbefore.
  pose proof (take_drop_middle rows i ri Hri) as Hrows.
  assert (Hlen : length (take i rows) = i).
  { apply length_take_le. apply lookup_lt_Some in Hri. lia. }
  rewrite <- Hrows at 1. rewrite omap_after_header by lia.
  cbn [omap list_omap]. rewrite Hx. fold (omap f (drop (S i) rows)).
  apply find_first; [|exact HPx].
  apply List.Forall_forall. intros y Hin. apply list_elem_of_In in Hin.
  apply list_elem_of_omap in Hin as [rj [Hin Hy]].
  apply list_elem_of_lookup in Hin as [k Hk]. rewrite lookup_drop in Hk.
  assert (Hlt : (1 + k < i)%nat).
  { apply lookup_lt_Some in Hk. lia. }
  rewrite lookup_take_lt in Hk by exact Hlt.
  apply (Hbefore (1 + k)%nat rj y); [lia | exact Hk | exact Hy].
Qed.

(** C9.  Items keep the order of their rows: an item emitted from an earlier
    row stands before an item emitted from a later row, in the asset list
    and in the liability list.  So the first total row of a list, the one
    the summary totals read, comes from the earliest row of the sheet that
    emits a total row into that list. *)
Theorem parse_rows_order (rows : list (list prim)) (i : nat) (ri : list prim) :
  (1 <= i)%nat -> rows !! i = Some ri ->
  (forall j rj x y, (i < j)%nat -> rows !! j = Some rj ->
     Mapper.asset_item ri = Some x -> Mapper.asset_item rj = Some y ->
     exists l1 l2 l3, fst (App.parse_rows rows) = l1 ++ x :: l2 ++ y :: l3)
  /\ (forall j rj x y, (i < j)%nat -> rows !! j = Some rj ->
       Mapper.liability_item ri = Some x -> Mapper.liability_item rj = Some y ->
       exists l1 l2 l3, snd (App.parse_rows rows) = l1 ++ x :: l2 ++ y :: l3)
  /\ (forall x, Mapper.asset_item ri = Some x -> FinancialItem.isTotal x = true ->
       (forall k rk y, (1 <= k < i)%nat -> rows !! k = Some rk ->
          Mapper.asset_item rk = Some y -> FinancialItem.isTotal y = false) ->
       List.find FinancialItem.isTotal (fst (App.parse_rows rows)) = Some x
       /\ forall data, ativo data = fst (App.parse_rows rows) ->
            App.a25 (App.totals (Some data)) = Number_or (FinancialItem.v25 x) zero
            /\ App.a24 (App.totals (Some data)) = Number_or (FinancialItem.v24 x) zero)
  /\ (forall x, Mapper.liability_item ri = Some x -> FinancialItem.isTotal x = true ->
       (forall k rk y, (1 <= k < i)%nat -> rows !! k = Some rk ->
          Mapper.liability_item rk = Some y -> FinancialItem.isTotal y = false) ->
       List.find FinancialItem.isTotal (snd (App.parse_rows rows)) = Some x
       /\ forall data, passivo data = snd (App.parse_rows rows) ->
            App.p25 (App.totals (Some data)) = Number_or (FinancialItem.v25 x) zero
            /\ App.p24 (App.totals (Some data)) = Number_or (FinancialItem.v24 x) zero).
Proof.
  intros Hi Hri. rewrite parse_rows_omap. cbn [fst snd].
  split; [|split; [|split]].
  - intros j rj x y Hij Hrj. apply (emitted_in_order _ rows i j ri rj); assumption.
  - intros j rj x y Hij Hrj. apply (emitted_in_order _ rows i j ri rj); assumption.
  - intros x Hx Ht Hbefore.
    pose proof (earliest_is_found _ _ rows i ri x Hi Hri Hx Ht Hbefore) as Hfind.
    split; [exact Hfind|]. intros data Hdata.
    cbn [App.totals App.a25 App.a24]. rewrite Hdata, Hfind. split; reflexivity.
  - intros x Hx Ht Hbefore.
    pose proof (earliest_is_found _ _ rows i ri x Hi Hri Hx Ht Hbefore) as Hfind.
    split; [exact Hfind|]. intros data Hdata.
    cbn [App.totals App.p25 App.p24]. rewrite Hdata, Hfind. split; reflexivity.
Qed.

End parser_properties.

Lemma reference_caseMapping_latin1 : @CaseMappingLatin1 Reference.caseMapping.
Proof. intros s _. reflexivity. Qed.

Lemma parse_rows_spec_witness :
  @App.parse_rows Reference.numberFormat Reference.caseMapping sample_rows =
    ( [ FinancialItem.mk (js "Caixa") (Number_of_N 100) (Number_of_N 50) false false;
        FinancialItem.mk (js "Total do Ativo") (Number_of_N 1000) (Number_of_N 900)
          true false ],
      [ FinancialItem.mk (js "Fornecedores") (Number_of_N 40) (Number_of_N 30)
          false false;
        FinancialItem.mk (js "Patrimônio Líquido") (Number_of_N 960) (Number_of_N 870)
          false true;
        FinancialItem.mk (js "TOTAL DO PASSIVO") (Number_of_N 1000) (Number_of_N 900)
          true false ] ).
Proof.
  pose proof (@parse_rows_spec Reference.numberFormat Reference.caseMapping
                (hd [] sample_rows) (tl sample_rows)) as (Hrows & _).
  change (hd [] sample_rows :: tl sample_rows) with sample_rows in Hrows.
  rewrite Hrows. vm_compute. reflexivity.
Defined.

Lemma classification_spec_witness :
  @App.parse_rows Reference.numberFormat Reference.caseMapping
    [ []; [ Str (js "Total do Ativo Circulante"); Undefined; Undefined; Undefined;
            Str (js "PATRIMÔNIO LÍQUIDO") ];
          [ Str (js "Tótal"); Undefined; Undefined; Undefined;
            Str (js "Patrimonio Liquido") ] ] =
  ( [ FinancialItem.mk (js "Total do Ativo Circulante") zero zero true true;
      FinancialItem.mk (js "Tótal") zero zero false false ],
    [ FinancialItem.mk (js "PATRIMÔNIO LÍQUIDO") zero zero false true;
      FinancialItem.mk (js "Patrimonio Liquido") zero zero false false ] ).
Proof.
  exact (proj2 (proj2
    (@classification_spec Reference.numberFormat Reference.caseMapping
       reference_caseMapping_latin1 []))).
Defined.

Lemma parse_rows_order_witness :
  List.find FinancialItem.isTotal
    (snd (@App.parse_rows Reference.numberFormat Reference.caseMapping sample_rows)) =
  Some (FinancialItem.mk (js "TOTAL DO PASSIVO") (Number_of_N 1000) (Number_of_N 900)
          true false).
Proof.
  refine (proj1 (proj2 (proj2 (proj2
    (@parse_rows_order Reference.numberFormat Reference.caseMapping sample_rows 3%nat
       [ Undefined; Undefined; Undefined; Undefined;
         Str (js "TOTAL DO PASSIVO"); Num (Number_of_N 1000); Num (Number_of_N 900) ]
       _ _))) _ _ _ _)).
  - lia.
  - reflexivity.
  - vm_compute. reflexivity.
  - reflexivity.
  - intros k rk y Hk Hrk Hy.
    destruct k as [|[|[|k]]]; [lia| | |lia].
    + injection Hrk as <-. vm_compute in Hy. injection Hy as <-. reflexivity.
    + injection Hrk as <-. vm_compute in Hy. injection Hy as <-. reflexivity.
Defined.

(** ** Summary totals *)

Lemma find_none {A} (P : A -> bool) (l : list A) :
  Forall (fun y => P y = false) l -> List.find P l = None.
Proof.
  intros Hl. induction Hl as [|y l Hy _ IH]; cbn; [reflexivity|].
  rewrite Hy. exact IH.
Qed.

(** C4, as stated, fails: the first total row of [nan_total] carries [NaN]
    and [-0], and the totals are [0] and [+0]. *)
Lemma totals_falsy_counterexample :
  List.find FinancialItem.isTotal (ativo nan_total) =
    Some (FinancialItem.mk (js "Total do Ativo") NaN (S754_zero true) true false)
  /\ App.a25 (App.totals (Some nan_total)) = zero
  /\ App.a24 (App.totals (Some nan_total)) = zero
  /\ zero <> NaN
  /\ zero <> S754_zero true.
Proof. repeat split; try reflexivity; discriminate. Qed.

(** C4, amended.  Each summary total is read from the first item of its list
    whose [isTotal] is true, whatever follows it: it equals the value of
    that item when the value is neither zero nor [NaN], and is [0]
    otherwise; it is [0] when the list has no total row, and when there is
    no data.  For the assets [Caixa 100/50] and [Total do Ativo 1000/900]
    the totals are [1000] and [900]. *)
Theorem totals_spec (data : DashboardData) :
  (forall pre item post,
     ativo data = pre ++ item :: post ->
     Forall (fun y => FinancialItem.isTotal y = false) pre ->
     FinancialItem.isTotal item = true ->
     App.a25 (App.totals (Some data)) =
       (if Number_truthy (FinancialItem.v25 item) then FinancialItem.v25 item else zero)
     /\ App.a24 (App.totals (Some data)) =
         (if Number_truthy (FinancialItem.v24 item) then FinancialItem.v24 item else zero))
  /\ (Forall (fun y => FinancialItem.isTotal y = false) (ativo data) ->
       App.a25 (App.totals (Some data)) = zero /\ App.a24 (App.totals (Some data)) = zero)
  /\ (forall pre item post,
       passivo data = pre ++ item :: post ->
       Forall (fun y => FinancialItem.isTotal y = false) pre ->
       FinancialItem.isTotal item = true ->
       App.p25 (App.totals (Some data)) =
         (if Number_truthy (FinancialItem.v25 item) then FinancialItem.v25 item else zero)
       /\ App.p24 (App.totals (Some data)) =
           (if Number_truthy (FinancialItem.v24 item) then FinancialItem.v24 item else zero))
  /\ (Forall (fun y => FinancialItem.isTotal y = false) (passivo data) ->
       App.p25 (App.totals (Some data)) = zero /\ App.p24 (App.totals (Some data)) = zero)
  /\ App.totals None = App.mkTotals zero zero zero zero
  /\ (let assets :=
         [ FinancialItem.mk (js "Caixa") (Number_of_N 100) (Number_of_N 50) false false;
           FinancialItem.mk (js "Total do Ativo") (Number_of_N 1000) (Number_of_N 900)
             true false ] in
       App.a25 (App.totals (Some (mkDashboardData assets (passivo data) (kpis data)
                                     (lastUpdated data)))) = Number_of_N 1000
       /\ App.a24 (App.totals (Some (mkDashboardData assets (passivo data) (kpis data)
                                       (lastUpdated data)))) = Number_of_N 900).
Proof.
  split; [|split; [|split; [|split; [|split]]]].
  - intros pre item post Hlist Hpre Hitem.
    cbn [App.totals App.a25 App.a24].
    rewrite Hlist, (find_first _ pre post item Hpre Hitem). split; reflexivity.
  - intros Hnone. cbn [App.totals App.a25 App.a24].
    rewrite (find_none _ _ Hnone). split; reflexivity.
  - intros pre item post Hlist Hpre Hitem.
    cbn [App.totals App.p25 App.p24].
    rewrite Hlist, (find_first _ pre post item Hpre Hitem). split; reflexivity.
  - intros Hnone. cbn [App.totals App.p25 App.p24].
    rewrite (find_none _ _ Hnone). split; reflexivity.
  - reflexivity.
  - split; reflexivity.
Qed.

(** [parseMoeda] yields [0] or a Number that is not falsy: never [NaN],
    never [-0]. *)
Lemma parseMoeda_zero_or_truthy (valor : prim) :
  App.parseMoeda valor = zero \/ Number_truthy (App.parseMoeda valor) = true.
Proof.
  assert (Hor : forall x, Number_or x zero = zero \/ Number_truthy (Number_or x zero) = true).
  { intros x. unfold Number_or. destruct (Number_truthy x) eqn:Hx; [right; exact Hx | left; reflexivity]. }
  unfold App.parseMoeda. destruct (ToBoolean valor) eqn:Hv; cbn [negb]; [|left; reflexivity].
  destruct valor as [| |b|x|s]; try (left; reflexivity); try apply Hor.
  right. exact Hv.
Qed.

Lemma or_zero_parseMoeda (valor : prim) :
  or_zero (Some (App.parseMoeda valor)) = App.parseMoeda valor.
Proof.
  cbn [or_zero]. unfold Number_or.
  destruct (parseMoeda_zero_or_truthy valor) as [-> | ->]; reflexivity.
Qed.

(** On the aggregates that the parser builds the values of the total rows
    are never falsy in a way that [|| 0] would change: the totals are the
    values of the first total rows. *)
Lemma totals_of_parsed `{NumberFormat} `{CaseMapping}
    (rows : list (list prim)) (data : DashboardData) :
  ativo data = fst (App.parse_rows rows) ->
  passivo data = snd (App.parse_rows rows) ->
  App.totals (Some data) =
    {| App.a25 := from_option FinancialItem.v25 zero
                    (List.find FinancialItem.isTotal (ativo data));
       App.a24 := from_option FinancialItem.v24 zero
                    (List.find FinancialItem.isTotal (ativo data));
       App.p25 := from_option FinancialItem.v25 zero
                    (List.find FinancialItem.isTotal (passivo data));
       App.p24 := from_option FinancialItem.v24 zero
                    (List.find FinancialItem.isTotal (passivo data)) |}.
Proof.
  intros Ha Hp. cbn [App.totals].
  assert (Hitems : forall (f : list prim -> option FinancialItem.t) l,
            (forall row i, f row = Some i ->
               exists a b, FinancialItem.v25 i = App.parseMoeda a
                           /\ FinancialItem.v24 i = App.parseMoeda b) ->
            or_zero (FinancialItem.v25 <$> List.find FinancialItem.isTotal (omap f l))
              = from_option FinancialItem.v25 zero
                  (List.find FinancialItem.isTotal (omap f l))
            /\ or_zero (FinancialItem.v24 <$> List.find FinancialItem.isTotal (omap f l))
                = from_option FinancialItem.v24 zero
                    (List.find FinancialItem.isTotal (omap f l))).
  { intros f l Hf.
    destruct (List.find FinancialItem.isTotal (omap f l)) as [i|] eqn:Hfind;
      [|split; reflexivity].
    apply List.find_some in Hfind as [Hin _]. apply list_elem_of_In in Hin.
    apply list_elem_of_omap in Hin as (row & _ & Hrow).
    destruct (Hf row i Hrow) as (a & b & H25 & H24).
    cbn [fmap option_fmap option_map from_option]. rewrite H25, H24.
    split; apply or_zero_parseMoeda. }
  rewrite Ha, Hp, parse_rows_omap. cbn [fst snd].
  destruct (Hitems Mapper.asset_item (drop 1 rows)) as [-> ->].
  { intros row i. unfold Mapper.asset_item.
    destruct (ToBoolean (App.at_ row 0)); [|discriminate].
    intros [= <-]. eexists _, _. split; reflexivity. }
  destruct (Hitems Mapper.liability_item (drop 1 rows)) as [-> ->].
  { intros row i. unfold Mapper.liability_item.
    destruct (ToBoolean (App.at_ row 4)); [|discriminate].
    intros [= <-]. eexists _, _. split; reflexivity. }
  reflexivity.
Qed.

Lemma totals_spec_witness :
  let data :=
    {| ativo := [ FinancialItem.mk (js "Caixa") (Number_of_N 100) (Number_of_N 50)
                    false false;
                  FinancialItem.mk (js "Total do Ativo") (Number_of_N 1000)
                    (Number_of_N 900) true false;
                  FinancialItem.mk (js "Total geral") (Number_of_N 7) (Number_of_N 7)
                    true false ];
       passivo := [];
       kpis := App.DEFAULT_KPIS;
       lastUpdated := js "2025-01-01T00:00:00.000Z" |} in
  (App.a25 (App.totals (Some data)) = Number_of_N 1000
   /\ App.a24 (App.totals (Some data)) = Number_of_N 900)
  /\ (App.p25 (App.totals (Some data)) = zero /\ App.p24 (App.totals (Some data)) = zero).
Proof.
  intros data.
  destruct (totals_spec data) as (Hfirst & _ & _ & Hnone & _).
  split.
  - apply (Hfirst
             [ FinancialItem.mk (js "Caixa") (Number_of_N 100) (Number_of_N 50) false false ]
             (FinancialItem.mk (js "Total do Ativo") (Number_of_N 1000) (Number_of_N 900)
                true false)
             [ FinancialItem.mk (js "Total geral") (Number_of_N 7) (Number_of_N 7)
                 true false ]).
    + reflexivity.
    + repeat constructor.
    + reflexivity.
  - apply Hnone. constructor.
Defined.

(** ** The persistence adapter *)

Section adapter_properties.
Context `{J : JSON}.

Import databaseService.

Lemma loadData_absent (env : Env) :
  localStorage env !! STORAGE_KEY = None ->
  loadData env =
    (Normal (Prim Null),
     mkEnv (localStorage env) (storageCalls env ++ [GetItem STORAGE_KEY]) (console env)).
Proof.
  intros Habsent. unfold loadData, bind, getItem. rewrite Habsent. reflexivity.
Qed.

Lemma loadData_present (env : Env) (text : jsstring) :
  localStorage env !! STORAGE_KEY = Some text -> text <> [] ->
  loadData env =
    match JSON_parse text with
    | Normal v =>
        (Normal v,
         mkEnv (localStorage env) (storageCalls env ++ [GetItem STORAGE_KEY])
           (console env))
    | Throw e =>
        (Normal (Prim Null),
         mkEnv (localStorage env) (storageCalls env ++ [GetItem STORAGE_KEY])
           (console env ++ [[Prim (Str (js "Failed to parse saved data")); e]]))
    end.
Proof.
  intros Hpresent Hne. unfold loadData, bind, getItem. rewrite Hpresent.
  cbn [ToBoolean]. rewrite bool_decide_eq_false_2 by exact Hne. cbn [negb].
  unfold try_catch, lift. destruct (JSON_parse text); reflexivity.
Qed.

Lemma loadData_empty_text (env : Env) :
  localStorage env !! STORAGE_KEY = Some [] ->
  loadData env =
    (Normal (Prim Null),
     mkEnv (localStorage env) (storageCalls env ++ [GetItem STORAGE_KEY]) (console env)).
Proof.
  intros Hpresent. unfold loadData, bind, getItem. rewrite Hpresent. reflexivity.
Qed.


Lemma perform_frame (op : Adapter.operation) (env : Env) (key : jsstring) :
  key <> STORAGE_KEY ->
  localStorage (Adapter.perform op env) !! key = localStorage env !! key.
Proof.
  intros Hkey. destruct op as [data| |]; cbn [Adapter.perform].
  - unfold saveData, setItem. cbn [snd localStorage].
    apply lookup_insert_ne. congruence.
  - destruct (localStorage env !! STORAGE_KEY) as [text|] eqn:Hsaved.
    + destruct text as [|c text].
      * rewrite loadData_empty_text by exact Hsaved. reflexivity.
      * rewrite (loadData_present env (c :: text)) by (exact Hsaved || discriminate).
        destruct (JSON_parse (c :: text)); reflexivity.
    + rewrite loadData_absent by exact Hsaved. reflexivity.
  - unfold clearData, removeItem. cbn [snd localStorage].
    apply lookup_delete_ne. congruence.
Qed.

Lemma perform_call (op : Adapter.operation) (env : Env) :
  exists call,
    storageCalls (Adapter.perform op env) = storageCalls env ++ [call]
    /\ call_key call = STORAGE_KEY.
Proof.
  destruct op as [data| |]; cbn [Adapter.perform].
  - eexists. split; reflexivity.
  - exists (GetItem STORAGE_KEY). split; [|reflexivity].
    destruct (localStorage env !! STORAGE_KEY) as [text|] eqn:Hsaved.
    + destruct text as [|c text].
      * rewrite loadData_empty_text by exact Hsaved. reflexivity.
      * rewrite (loadData_present env (c :: text)) by (exact Hsaved || discriminate).
        destruct (JSON_parse (c :: text)); reflexivity.
    + rewrite loadData_absent by exact Hsaved. reflexivity.
  - eexists. split; reflexivity.
Qed.

(** C10.  Whatever sequence of [saveData], [loadData] and [clearData] runs,
    every call it makes on [localStorage] names the key
    [PRO_ACTIVE_DASHBOARD_DATA], one call for each operation, and every
    other key of the store keeps its value, or stays absent. *)
Theorem adapter_frame (ops : list Adapter.operation) (env : Env) (key : jsstring) :
  key <> STORAGE_KEY ->
  localStorage (Adapter.perform_all ops env) !! key = localStorage env !! key
  /\ exists made,
       storageCalls (Adapter.perform_all ops env) = storageCalls env ++ made
       /\ Forall (fun call => call_key call = STORAGE_KEY) made
       /\ length made = length ops
       /\ STORAGE_KEY = js "PRO_ACTIVE_DASHBOARD_DATA".
Proof.
  intros Hkey. revert env. induction ops as [|op ops IH]; intros env.
  - split; [reflexivity|]. exists []. rewrite app_nil_r.
    split; [reflexivity|]. split; [constructor | split; reflexivity].
  - cbn [Adapter.perform_all fold_left].
    destruct (IH (Adapter.perform op env)) as (Hframe & made & Hcalls & Hkeys & Hlen & _).
    unfold Adapter.perform_all in Hframe, Hcalls. split.
    + rewrite Hframe. apply perform_frame. exact Hkey.
    + destruct (perform_call op env) as (call & Hcall & Hcallkey).
      exists (call :: made). rewrite Hcalls, Hcall, <- app_assoc.
      split; [reflexivity|]. split.
      * constructor; assumption.
      * cbn [length]. rewrite Hlen. split; reflexivity.
Qed.

(** A stored aggregate is an object literal all the way down. *)
Lemma FinancialItem_plain (l : list FinancialItem.t) :
  forallb plain (List.map FinancialItem.to_js l) = true.
Proof.
  induction l as [|i l IH]; [reflexivity|].
  cbn [List.map forallb]. rewrite IH, andb_true_r.
  unfold FinancialItem.to_js. vm_compute. reflexivity.
Qed.

Lemma KPI_plain (l : list KPI.t) :
  forallb plain (List.map KPI.to_js l) = true.
Proof.
  induction l as [|k l IH]; [reflexivity|].
  cbn [List.map forallb]. rewrite IH, andb_true_r.
  unfold KPI.to_js. destruct (KPI.unit k); vm_compute; reflexivity.
Qed.

Lemma DashboardData_plain (data : DashboardData) :
  plain (DashboardData_to_js data) = true.
Proof.
  unfold DashboardData_to_js. cbn [plain forallb fst snd].
  rewrite !FinancialItem_plain, KPI_plain. vm_compute. reflexivity.
Qed.

(** [SerializeJSONProperty] leaves an exact value as it is. *)
Lemma SerializeJSONProperty_exact (v : jsval) :
  json_exact v = true -> SerializeJSONProperty v = Some v.
Proof.
  induction v as [p|elems IH|props IH] using jsval_ind; intros Hexact.
  - destruct p as [| |b|x|s]; try reflexivity; [discriminate|].
    cbn in Hexact |- *. destruct x as [[]| | |]; try discriminate; reflexivity.
  - cbn [SerializeJSONProperty]. do 2 f_equal.
    cbn [json_exact] in Hexact. induction IH as [|e elems He _ IHelems]; [reflexivity|].
    cbn [forallb] in Hexact. apply andb_true_iff in Hexact as [Hhd Htl].
    cbn [List.map]. rewrite (He Hhd), (IHelems Htl). reflexivity.
  - cbn [SerializeJSONProperty]. do 2 f_equal.
    cbn [json_exact] in Hexact. induction IH as [|[k e] props He _ IHprops]; [reflexivity|].
    cbn [forallb snd] in Hexact. apply andb_true_iff in Hexact as [Hhd Htl].
    cbn [List.flat_map fst snd] in He |- *. rewrite (He Hhd), (IHprops Htl). reflexivity.
Qed.

Lemma items_exact (l : list FinancialItem.t) :
  forallb item_safe l = true ->
  forallb json_exact (List.map FinancialItem.to_js l) = true.
Proof.
  induction l as [|i l IH]; [reflexivity|].
  cbn [List.map forallb]. intros [Hi Hl]%andb_true_iff.
  rewrite (IH Hl), andb_true_r.
  unfold item_safe in Hi. apply andb_true_iff in Hi as [H25 H24].
  cbn. rewrite H25, H24. reflexivity.
Qed.

Lemma kpis_exact (l : list KPI.t) :
  forallb kpi_safe l = true ->
  forallb json_exact (List.map KPI.to_js l) = true.
Proof.
  induction l as [|k l IH]; [reflexivity|].
  cbn [List.map forallb]. intros [Hk Hl]%andb_true_iff.
  rewrite (IH Hl), andb_true_r.
  unfold kpi_safe in Hk. apply andb_true_iff in Hk as [H25 H24].
  unfold KPI.to_js. cbn [json_exact forallb snd app].
  destruct (KPI.v25 k), (KPI.v24 k), (KPI.unit k); cbn in *;
    rewrite ?H25, ?H24; reflexivity.
Qed.

Lemma DashboardData_exact (data : DashboardData) :
  json_safe data = true -> json_exact (DashboardData_to_js data) = true.
Proof.
  unfold json_safe. intros [[Ha Hp]%andb_true_iff Hk]%andb_true_iff.
  unfold DashboardData_to_js. cbn [json_exact forallb snd].
  rewrite (items_exact _ Ha), (items_exact _ Hp), (kpis_exact _ Hk). reflexivity.
Qed.

Section roundtrip.
Context `{!JSONLaws}.

(** A text that [JSON.parse] accepts is not empty. *)
Lemma parsed_text_nonempty (text : jsstring) (v : jsval) :
  JSON_parse text = Normal v -> text <> [].
Proof.
  intros Hparse ->. destruct JSON_parse_empty as [e He]. congruence.
Qed.

(** What [loadData] returns after [saveData]: the serialized aggregate. *)
Lemma save_then_load (data : DashboardData) (env : Env) (j : jsval) :
  SerializeJSONProperty (DashboardData_to_js data) = Some j ->
  fst (loadData (snd (saveData data env))) = Normal j.
Proof.
  intros Hser.
  pose proof (JSON_parse_stringify _ _ (DashboardData_plain data) Hser) as Hparse.
  rewrite (loadData_present _ (JSON_stringify (DashboardData_to_js data))).
  - rewrite Hparse. reflexivity.
  - unfold saveData, setItem. cbn [snd localStorage]. apply lookup_insert_eq.
  - exact (parsed_text_nonempty _ _ Hparse).
Qed.

(** C5, amended.  For every aggregate whose Numbers are all finite and
    other than [-0] (the Numbers JSON has a numeral for), the empty
    aggregate included, and from every state of the store: [loadData] after
    [saveData] does not throw and returns a value equal to the aggregate,
    property by property. *)
Theorem save_load_roundtrip (data : DashboardData) (env : Env) :
  json_safe data = true ->
  fst (loadData (snd (saveData data env))) = Normal (DashboardData_to_js data).
Proof.
  intros Hsafe. apply save_then_load.
  apply SerializeJSONProperty_exact, DashboardData_exact. exact Hsafe.
Qed.

End roundtrip.

End adapter_properties.

(** ** The reference codec obeys the laws of [JSON] *)

Lemma unbits_bits (p : positive) : Reference.unbits (Reference.bits p) = Some p.
Proof.
  induction p as [p IH|p IH|]; cbn [Reference.bits Reference.unbits];
    [change (49 =? 48) with false; change (49 =? 49) with true
    |change (48 =? 48) with true|]; cbn iota; rewrite ?IH; reflexivity.
Qed.

Lemma of_to_tree (v : jsval) : Reference.of_tree (Reference.to_tree v) = Some v.
Proof.
  induction v as [p|elems IH|props IH] using jsval_ind; cbn [Reference.to_tree Reference.of_tree].
  - reflexivity.
  - assert (Helems : mapM Reference.of_tree (List.map Reference.to_tree elems) = Some elems).
    { induction IH as [|e elems He _ IHelems]; [reflexivity|].
      cbn [List.map mapM]. rewrite He. cbn [mbind option_bind].
      rewrite IHelems. reflexivity. }
    rewrite Helems. reflexivity.
  - match goal with |- Obj <$> mapM ?f ?l = _ => assert (Hprops : mapM f l = Some props) end.
    { induction IH as [|[k e] props He _ IHprops]; [reflexivity|].
      cbn [List.map mapM fst snd] in He |- *. rewrite He. cbn [fmap option_fmap option_map mbind option_bind].
      rewrite IHprops. reflexivity. }
    rewrite Hprops. reflexivity.
Qed.

Lemma read_write (j : jsval) : Reference.read (Reference.write j) = Some j.
Proof.
  unfold Reference.read, Reference.write.
  rewrite unbits_bits. cbn [mbind option_bind].
  rewrite decode_encode. cbn [mbind option_bind]. apply of_to_tree.
Qed.

Lemma reference_JSONLaws : @JSONLaws Reference.json.
Proof.
  split.
  - intros v j _ Hser. cbn [JSON_parse JSON_stringify Reference.json].
    rewrite Hser, read_write. reflexivity.
  - eexists. reflexivity.
Qed.

(** ** Saving and loading, on the reference engine *)

Lemma handleFileUpload_saves `{NumberFormat} `{CaseMapping} `{JSON}
    (rows : list (list prim)) (now : jsstring) (env : Env) :
  let newData :=
    {| ativo := fst (App.parse_rows rows); passivo := snd (App.parse_rows rows);
       kpis := App.DEFAULT_KPIS; lastUpdated := now |} in
  App.handleFileUpload rows now env =
    (Normal newData, snd (databaseService.saveData newData env)).
Proof.
  unfold App.handleFileUpload. destruct (App.parse_rows rows) as [nA nP].
  reflexivity.
Qed.

(** C5, as stated, fails.  Uploading [overflow_rows] builds and saves
    [overflow_data], whose [v25] is [Infinity]; what [loadData] then returns
    has [null] in its place. *)
Lemma save_load_infinity_counterexample :
  fst (@App.handleFileUpload Reference.numberFormat Reference.caseMapping Reference.json
         overflow_rows (js "2025-01-01T00:00:00.000Z") emptyEnv) = Normal overflow_data
  /\ fst (@databaseService.loadData Reference.json
            (snd (@App.handleFileUpload Reference.numberFormat Reference.caseMapping
                    Reference.json overflow_rows (js "2025-01-01T00:00:00.000Z") emptyEnv))) =
      Normal
        (Obj [ (js "ativo",
                Arr [ Obj [ (js "desc", Prim (Str (js "Caixa")));
                            (js "v25", Prim Null);
                            (js "v24", Prim (Num (Number_of_N 80)));
                            (js "isTotal", Prim (Bool false));
                            (js "isGroup", Prim (Bool false)) ] ]);
               (js "passivo", Arr []);
               (js "kpis", Arr (List.map KPI.to_js App.DEFAULT_KPIS));
               (js "lastUpdated", Prim (Str (js "2025-01-01T00:00:00.000Z"))) ])
  /\ fst (@databaseService.loadData Reference.json
            (snd (@App.handleFileUpload Reference.numberFormat Reference.caseMapping
                    Reference.json overflow_rows (js "2025-01-01T00:00:00.000Z") emptyEnv))) <>
      Normal (DashboardData_to_js overflow_data).
Proof.
  rewrite handleFileUpload_saves. cbn [fst snd].
  assert (Hdata :
    {| ativo := fst (@App.parse_rows Reference.numberFormat Reference.caseMapping overflow_rows);
       passivo := snd (@App.parse_rows Reference.numberFormat Reference.caseMapping overflow_rows);
       kpis := App.DEFAULT_KPIS;
       lastUpdated := js "2025-01-01T00:00:00.000Z" |} = overflow_data).
  { vm_compute. reflexivity. }
  rewrite Hdata. split; [reflexivity|].
  rewrite (@save_then_load Reference.json reference_JSONLaws overflow_data emptyEnv _
             ltac:(vm_compute; reflexivity)).
  split.
  - vm_compute. reflexivity.
  - vm_compute. discriminate.
Qed.

Lemma save_load_roundtrip_witness :
  fst (@databaseService.loadData Reference.json
         (snd (@databaseService.saveData Reference.json empty_data emptyEnv))) =
    Normal (DashboardData_to_js empty_data).
Proof.
  apply (@save_load_roundtrip Reference.json reference_JSONLaws empty_data emptyEnv).
  vm_compute. reflexivity.
Defined.


Lemma adapter_frame_witness :
  localStorage
    (@Adapter.perform_all Reference.json
       [ Adapter.LoadData; Adapter.SaveData empty_data; Adapter.LoadData; Adapter.ClearData; Adapter.LoadData ]
       corrupt_env) !! js "theme" = Some (js "dark").
Proof.
  rewrite (proj1 (@adapter_frame Reference.json
                    [ Adapter.LoadData; Adapter.SaveData empty_data; Adapter.LoadData; Adapter.ClearData;
                      Adapter.LoadData ]
                    corrupt_env (js "theme") ltac:(vm_compute; discriminate))).
  vm_compute. reflexivity.
Defined.

(** ** The insight requester *)

Section insight_properties.
Context `{NF : NumberFormat}.

Import geminiService.

Lemma getFinancialInsights_constructed `{G : GoogleGenAI}
    (data : DashboardData) (env : Env) (ai : Client) :
  new_GoogleGenAI API_KEY = Normal ai ->
  getFinancialInsights data env =
    match generateContent ai (js "gemini-3-pro-preview") (Requester.prompt_of data) with
    | Normal response => (Normal (String_or (text response) NO_INSIGHTS), env)
    | Throw error =>
        (Normal CONNECTION_ERROR,
         mkEnv (localStorage env) (storageCalls env)
           (console env ++ [[Prim (Str (js "Gemini Error:")); error]]))
    end.
Proof.
  intros Hnew. unfold getFinancialInsights, bind, lift, try_catch, Requester.prompt_of.
  rewrite Hnew.
  destruct (generateContent ai _ _) as [response|error]; reflexivity.
Qed.

Lemma getFinancialInsights_not_constructed `{G : GoogleGenAI}
    (data : DashboardData) (env : Env) (e : jsval) :
  new_GoogleGenAI API_KEY = Throw e ->
  getFinancialInsights data env = (Throw e, env).
Proof.
  intros Hnew. unfold getFinancialInsights, bind, lift. rewrite Hnew. reflexivity.
Qed.

(** Once the client is constructed the request never throws: the result is
    the text of the response, or one of the two fixed messages.  A rejected
    request is logged and answered [CONNECTION_ERROR].  A list without a
    total row contributes [0] to the prompt. *)
Lemma getFinancialInsights_after_construction `{G : GoogleGenAI}
    (data : DashboardData) (env : Env) (ai : Client) :
  new_GoogleGenAI API_KEY = Normal ai ->
  (exists report,
     fst (getFinancialInsights data env) = Normal report
     /\ report <> []
     /\ (report = NO_INSIGHTS \/ report = CONNECTION_ERROR
         \/ exists response,
              generateContent ai (js "gemini-3-pro-preview") (Requester.prompt_of data) =
                Normal response
              /\ text response = Some report))
  /\ (forall error,
       generateContent ai (js "gemini-3-pro-preview") (Requester.prompt_of data) = Throw error ->
       fst (getFinancialInsights data env) = Normal CONNECTION_ERROR
       /\ console (snd (getFinancialInsights data env)) =
           console env ++ [[Prim (Str (js "Gemini Error:")); error]])
  /\ (Forall (fun i => FinancialItem.isTotal i = false) (ativo data) ->
       Forall (fun i => FinancialItem.isTotal i = false) (passivo data) ->
       Requester.prompt_of data = prompt zero zero (kpis data)).
Proof.
  intros Hnew. rewrite (getFinancialInsights_constructed data env ai Hnew).
  split; [|split].
  - destruct (generateContent ai _ _) as [response|error] eqn:Hgen.
    + destruct (text response) as [[|c report]|] eqn:Htext.
      * exists NO_INSIGHTS. cbn [fst String_or]. split; [reflexivity|].
        split; [discriminate | left; reflexivity].
      * exists (c :: report). cbn [fst String_or]. split; [reflexivity|].
        split; [discriminate|]. right. right. exists response. split; [reflexivity | exact Htext].
      * exists NO_INSIGHTS. cbn [fst String_or]. split; [reflexivity|].
        split; [discriminate | left; reflexivity].
    + exists CONNECTION_ERROR. split; [reflexivity|].
      split; [discriminate | right; left; reflexivity].
  - intros error Hgen. rewrite Hgen. split; reflexivity.
  - intros Ha Hp. unfold Requester.prompt_of.
    rewrite (find_none _ _ Ha), (find_none _ _ Hp). reflexivity.
Qed.

(** C8.  When the request is fulfilled with a response whose text is
    missing or empty, the result is the fixed message [NO_INSIGHTS]: it is
    not the empty string, and it differs from the message that a rejected
    request is answered with. *)
Theorem empty_response_fallback (Gempty Gfailed : GoogleGenAI)
    (data : DashboardData) (env : Env)
    (ai : @Client Gempty) (response : GenerateContentResponse)
    (ai' : @Client Gfailed) (error : jsval) :
  @new_GoogleGenAI Gempty (@API_KEY Gempty) = Normal ai ->
  @generateContent Gempty ai (js "gemini-3-pro-preview") (Requester.prompt_of data) = Normal response ->
  text response = None \/ text response = Some [] ->
  @new_GoogleGenAI Gfailed (@API_KEY Gfailed) = Normal ai' ->
  @generateContent Gfailed ai' (js "gemini-3-pro-preview") (Requester.prompt_of data) = Throw error ->
  exists fallback failure,
    fst (@getFinancialInsights NF Gempty data env) = Normal fallback
    /\ fst (@getFinancialInsights NF Gfailed data env) = Normal failure
    /\ fallback = js "Não foi possível gerar insights no momento."
    /\ failure = js "Erro ao conectar com o serviço de IA. Verifique sua conexão."
    /\ fallback <> []
    /\ fallback <> failure.
Proof.
  intros Hnew Hgen Htext Hnew' Hgen'.
  exists NO_INSIGHTS, CONNECTION_ERROR.
  rewrite (@getFinancialInsights_constructed Gempty data env ai Hnew), Hgen.
  rewrite (@getFinancialInsights_constructed Gfailed data env ai' Hnew'), Hgen'.
  cbn [fst]. split; [|split; [|split; [|split; [|split]]]].
  - destruct Htext as [-> | ->]; reflexivity.
  - reflexivity.
  - reflexivity.
  - reflexivity.
  - discriminate.
  - vm_compute. discriminate.
Qed.

End insight_properties.

Lemma empty_response_fallback_witness :
  fst (@geminiService.getFinancialInsights Reference.numberFormat
         (Reference.browser_sdk (Some (js "key"))
            (fun _ => Normal {| geminiService.text := Some [] |}))
         empty_data emptyEnv) =
    Normal (js "Não foi possível gerar insights no momento.").
Proof.
  destruct (@empty_response_fallback Reference.numberFormat
              (Reference.browser_sdk (Some (js "key"))
                 (fun _ => Normal {| geminiService.text := Some [] |}))
              (Reference.browser_sdk (Some (js "key"))
                 (fun _ => Throw (Reference.Error "Error" "fetch failed")))
              empty_data emptyEnv (js "key") {| geminiService.text := Some [] |}
              (js "key") (Reference.Error "Error" "fetch failed"))
    as (fallback & failure & Hfallback & _ & -> & _).
  - reflexivity.
  - reflexivity.
  - right. reflexivity.
  - reflexivity.
  - reflexivity.
  - exact Hfallback.
Defined.

(** C7 fails where the client cannot be constructed.  [new GoogleGenAI]
    stands before the [try] block: with no API key in the process
    configuration the constructor of the browser client throws, and
    [getFinancialInsights] throws to its caller instead of returning the
    fixed message, whatever the data and whatever the service would have
    answered. *)
Theorem getFinancialInsights_raises :
  @geminiService.getFinancialInsights Reference.numberFormat
    (Reference.browser_sdk None (fun _ => Normal {| geminiService.text := Some (js "ok") |}))
    empty_data emptyEnv =
  (Throw (Reference.Error "Error" "An API Key must be set when running in a browser"),
   emptyEnv).
Proof.
  apply (@getFinancialInsights_not_constructed Reference.numberFormat
           (Reference.browser_sdk None _)).
  reflexivity.
Qed.

(* ===================================================================== *)
(** * Further properties of the sources                                    *)
(* ===================================================================== *)

(** ** [parseMoeda] *)

(** X1.  [parseMoeda] never yields [NaN] and never yields [-0], whatever
    the cell holds. *)
Theorem parseMoeda_never_nan (valor : prim) :
  App.parseMoeda valor <> NaN /\ App.parseMoeda valor <> S754_zero true.
Proof.
  destruct (parseMoeda_zero_or_truthy valor) as [Hz | Ht].
  - rewrite Hz. split; discriminate.
  - split; intros Heq; rewrite Heq in Ht; discriminate Ht.
Qed.

(** X2.  A parsed value parses to itself: feeding the result of
    [parseMoeda] back as a numeric cell gives the same Number. *)
Theorem parseMoeda_stable (valor : prim) :
  App.parseMoeda (Num (App.parseMoeda valor)) = App.parseMoeda valor.
Proof.
  destruct (parseMoeda_zero_or_truthy valor) as [Hz | Ht].
  - rewrite Hz. reflexivity.
  - apply parseMoeda_number. exact Ht.
Qed.

Lemma filter_moeda_app (a b : jsstring) :
  List.filter (fun c => negb (App.moeda_class c)) (a ++ b) =
    List.filter (fun c => negb (App.moeda_class c)) a
    ++ List.filter (fun c => negb (App.moeda_class c)) b.
Proof. apply List.filter_app. Qed.

Lemma parseMoeda_Str (text : jsstring) :
  App.parseMoeda (Str text) =
    Number_or
      (parseFloat
         (replace_first (js ",") (js ".")
            (List.filter (fun c => negb (App.moeda_class c)) text)))
      zero.
Proof.
  destruct text as [|c text]; [reflexivity|].
  apply parseMoeda_text. discriminate.
Qed.

(** X3.  The code units [R], [$], [.] and white space carry no value: one
    more of them, anywhere in a text, does not change what the text parses
    to. *)
Theorem parseMoeda_ignores_symbols (a b : jsstring) (c : N) :
  App.moeda_class c = true ->
  App.parseMoeda (Str (a ++ c :: b)) = App.parseMoeda (Str (a ++ b)).
Proof.
  intros Hc. rewrite !parseMoeda_Str, !filter_moeda_app.
  cbn [List.filter]. rewrite Hc. reflexivity.
Qed.

Lemma parseMoeda_ignores_symbols_witness :
  App.parseMoeda (Str (js "R$ 1.234,56")) = App.parseMoeda (Str (js "R$ 1234,56")).
Proof.
  exact (parseMoeda_ignores_symbols (js "R$ 1") (js "234,56") 46 eq_refl).
Defined.

(** *** A comma ends the numeral that [parseFloat] reads *)

Lemma startsWith_stop (needle r y : jsstring) (c : N) :
  Forall (fun a => a <> c) needle ->
  startsWith needle (r ++ c :: y) = startsWith needle r.
Proof.
  intros Hneedle. revert r.
  induction Hneedle as [|a needle Ha _ IH]; intros r; [reflexivity|].
  destruct r as [|b r]; cbn [startsWith app].
  - apply N.eqb_neq in Ha. rewrite Ha. reflexivity.
  - rewrite IH. reflexivity.
Qed.

Lemma span_digits_stop (r y : jsstring) :
  span_digits (r ++ 44 :: y) = (fst (span_digits r), snd (span_digits r) ++ 44 :: y).
Proof.
  induction r as [|c r IH]; [reflexivity|].
  cbn [span_digits app]. destruct (isDigit c); [|reflexivity].
  rewrite IH. destruct (span_digits r) as [ds rest]. reflexivity.
Qed.

Lemma exponentPart_stop (s y : jsstring) :
  exponentPart (s ++ 44 :: y) = exponentPart s.
Proof.
  destruct s as [|c r]; [reflexivity|].
  cbn [exponentPart app]. destruct ((c =? 101) || (c =? 69)); [|reflexivity].
  destruct r as [|sg r']; [reflexivity|]. cbn [app].
  rewrite (span_digits_stop r' y).
  change (sg :: r' ++ 44 :: y) with ((sg :: r') ++ 44 :: y).
  rewrite (span_digits_stop (sg :: r') y).
  destruct (span_digits r') as [ds1 rest1], (span_digits (sg :: r')) as [ds2 rest2].
  reflexivity.
Qed.

(** The literal reader, with its case on the decimal point spelled as a
    test. *)
Lemma strUnsignedDecimalLiteral_cases (sign : bool) (s : jsstring) :
  strUnsignedDecimalLiteral sign s =
    if startsWith (js "Infinity") s then S754_infinity sign
    else
      let ip := fst (span_digits s) in
      let r := snd (span_digits s) in
      let integer :=
        match ip with
        | [] => NaN
        | _ => Number_of_decimal sign (digits_value ip) (exponentPart r)
        end in
      match r with
      | c :: r' =>
          if c =? 46 then
            let fp := fst (span_digits r') in
            match ip, fp with
            | [], [] => NaN
            | _, _ =>
                Number_of_decimal sign (digits_value (ip ++ fp))
                  (exponentPart (snd (span_digits r')) - Z.of_nat (length fp))
            end
          else integer
      | [] => integer
      end.
Proof.
  unfold strUnsignedDecimalLiteral.
  destruct (startsWith (js "Infinity") s); [reflexivity|].
  destruct (span_digits s) as [ip r]. cbn [fst snd].
  destruct r as [|c r']; [reflexivity|].
  destruct c as [|p]; [reflexivity|].
  do 6 (destruct p as [p|p|]; try reflexivity).
  all: destruct (span_digits r') as [fp r'']; reflexivity.
Qed.

Lemma strUnsignedDecimalLiteral_stop (sign : bool) (r y : jsstring) :
  strUnsignedDecimalLiteral sign (r ++ 44 :: y) = strUnsignedDecimalLiteral sign r.
Proof.
  rewrite !strUnsignedDecimalLiteral_cases.
  rewrite startsWith_stop by (vm_compute; repeat constructor; discriminate).
  destruct (startsWith (js "Infinity") r); [reflexivity|].
  rewrite span_digits_stop. cbn [fst snd].
  destruct (span_digits r) as [ip rest]. cbn [fst snd].
  destruct rest as [|c rest'].
  - cbn [app]. change (44 =? 46) with false. cbn iota. reflexivity.
  - cbn [app]. destruct (c =? 46).
    + rewrite span_digits_stop. cbn [fst snd]. rewrite exponentPart_stop. reflexivity.
    + change (c :: rest' ++ 44 :: y) with ((c :: rest') ++ 44 :: y).
      rewrite exponentPart_stop. reflexivity.
Qed.

Lemma trimStart_stop (x y : jsstring) :
  trimStart (x ++ 44 :: y) = trimStart x ++ 44 :: y.
Proof.
  induction x as [|c x IH]; [reflexivity|].
  cbn [trimStart app]. destruct (isWhiteSpace c); [exact IH | reflexivity].
Qed.

Lemma parseFloat_cases (s : jsstring) :
  parseFloat s =
    match trimStart s with
    | [] => strUnsignedDecimalLiteral false []
    | c :: r =>
        if c =? 43 then strUnsignedDecimalLiteral false r
        else if c =? 45 then strUnsignedDecimalLiteral true r
        else strUnsignedDecimalLiteral false (c :: r)
    end.
Proof.
  unfold parseFloat. destruct (trimStart s) as [|c r]; [reflexivity|].
  destruct c as [|p]; [reflexivity|].
  do 6 (destruct p as [p|p|]; try reflexivity).
Qed.

(** [parseFloat] reads nothing past a comma. *)
Lemma parseFloat_stop (x y : jsstring) :
  parseFloat (x ++ 44 :: y) = parseFloat x.
Proof.
  rewrite !parseFloat_cases, trimStart_stop.
  destruct (trimStart x) as [|c r].
  - cbn [app]. change (44 =? 43) with false. change (44 =? 45) with false. cbn iota.
    apply (strUnsignedDecimalLiteral_stop false [] y).
  - cbn [app]. destruct (c =? 43); [apply strUnsignedDecimalLiteral_stop|].
    destruct (c =? 45); [apply strUnsignedDecimalLiteral_stop|].
    apply (strUnsignedDecimalLiteral_stop false (c :: r) y).
Qed.

Lemma replace_first_comma (a rest : jsstring) :
  Forall (fun c => c <> 44) a ->
  replace_first (js ",") (js ".") (a ++ 44 :: rest) = a ++ 46 :: rest.
Proof.
  intros Ha. change (js ",") with [44]. change (js ".") with [46].
  induction Ha as [|c a Hc _ IH]; [reflexivity|].
  cbn [replace_first app startsWith]. apply N.eqb_neq in Hc.
  rewrite N.eqb_sym, Hc. cbn [andb]. rewrite <- IH. reflexivity.
Qed.

Lemma filter_moeda_no_comma (a : jsstring) :
  Forall (fun c => c <> 44) a ->
  Forall (fun c => c <> 44) (List.filter (fun c => negb (App.moeda_class c)) a).
Proof.
  intros Ha. induction Ha as [|c a Hc _ IH]; [constructor|].
  cbn [List.filter]. destruct (negb (App.moeda_class c)); [constructor; assumption | exact IH].
Qed.

(** X4.  Only the first comma is a decimal comma: what follows a later
    comma is dropped, so a text is read up to its second comma at most. *)
Theorem parseMoeda_second_comma (a b c : jsstring) :
  Forall (fun u => u <> 44) a ->
  App.parseMoeda (Str (a ++ 44 :: b ++ 44 :: c)) = App.parseMoeda (Str (a ++ 44 :: b)).
Proof.
  intros Ha. rewrite !parseMoeda_Str, !filter_moeda_app.
  cbn [List.filter]. change (negb (App.moeda_class 44)) with true. cbn iota.
  rewrite filter_moeda_app. cbn [List.filter].
  change (negb (App.moeda_class 44)) with true. cbn iota.
  rewrite !replace_first_comma by (apply filter_moeda_no_comma; exact Ha).
  set (fa := List.filter _ a). set (fb := List.filter _ b). set (fc := List.filter _ c).
  change (fa ++ 46 :: fb ++ 44 :: fc) with (fa ++ (46 :: fb) ++ 44 :: fc).
  rewrite app_assoc, parseFloat_stop. reflexivity.
Qed.

Lemma parseMoeda_second_comma_witness :
  App.parseMoeda (Str (js "1,234,567")) = App.parseMoeda (Str (js "1,234")).
Proof.
  apply (parseMoeda_second_comma (js "1") (js "234") (js "567"));
    vm_compute; repeat constructor; discriminate.
Defined.

(** ** The parser's items, the totals and the upload *)

Section upload_properties.
Context `{NF : NumberFormat} `{CM : CaseMapping}.

Lemma parsed_item_values (rows : list (list prim)) (item : FinancialItem.t) :
  item ∈ fst (App.parse_rows rows) \/ item ∈ snd (App.parse_rows rows) ->
  exists a b,
    FinancialItem.v25 item = App.parseMoeda a /\ FinancialItem.v24 item = App.parseMoeda b.
Proof.
  rewrite parse_rows_omap. cbn [fst snd].
  intros [Hin | Hin]; apply list_elem_of_omap in Hin as (row & _ & Hrow).
  - unfold Mapper.asset_item in Hrow.
    destruct (ToBoolean (App.at_ row 0)); [|discriminate].
    injection Hrow as <-. eexists _, _. split; reflexivity.
  - unfold Mapper.liability_item in Hrow.
    destruct (ToBoolean (App.at_ row 4)); [|discriminate].
    injection Hrow as <-. eexists _, _. split; reflexivity.
Qed.

Lemma json_number_parseMoeda (valor : prim) :
  json_number (App.parseMoeda valor) = isFinite (App.parseMoeda valor).
Proof.
  destruct (parseMoeda_zero_or_truthy valor) as [-> | Ht]; [reflexivity|].
  destruct (App.parseMoeda valor) as [[]| | |]; try reflexivity; discriminate Ht.
Qed.

Lemma parsed_item_safe (rows : list (list prim)) (item : FinancialItem.t) :
  item ∈ fst (App.parse_rows rows) \/ item ∈ snd (App.parse_rows rows) ->
  item_safe item = isFinite (FinancialItem.v25 item) && isFinite (FinancialItem.v24 item).
Proof.
  intros Hin. destruct (parsed_item_values rows item Hin) as (a & b & H25 & H24).
  unfold item_safe. rewrite H25, H24, !json_number_parseMoeda. reflexivity.
Qed.

(** X5.  Every item the parser emits, into either list, carries values
    that are never [NaN] and never [-0]; so the only values of a parsed
    item that JSON cannot write are the infinite ones. *)
Theorem parsed_items_values (rows : list (list prim)) (item : FinancialItem.t) :
  item ∈ fst (App.parse_rows rows) \/ item ∈ snd (App.parse_rows rows) ->
  FinancialItem.v25 item <> NaN /\ FinancialItem.v25 item <> S754_zero true
  /\ FinancialItem.v24 item <> NaN /\ FinancialItem.v24 item <> S754_zero true
  /\ item_safe item =
       isFinite (FinancialItem.v25 item) && isFinite (FinancialItem.v24 item).
Proof.
  intros Hin. rewrite (parsed_item_safe rows item Hin).
  destruct (parsed_item_values rows item Hin) as (a & b & -> & ->).
  assert (Hrange : forall valor,
            App.parseMoeda valor <> NaN /\ App.parseMoeda valor <> S754_zero true).
  { intros valor. destruct (parseMoeda_zero_or_truthy valor) as [-> | Ht].
    - split; discriminate.
    - split; intros Heq; rewrite Heq in Ht; discriminate Ht. }
  destruct (Hrange a), (Hrange b). auto.
Qed.

End upload_properties.

Lemma sample_rows_parsed :
  @App.parse_rows Reference.numberFormat Reference.caseMapping sample_rows =
    ( [ FinancialItem.mk (js "Caixa") (Number_of_N 100) (Number_of_N 50) false false;
        FinancialItem.mk (js "Total do Ativo") (Number_of_N 1000) (Number_of_N 900)
          true false ],
      [ FinancialItem.mk (js "Fornecedores") (Number_of_N 40) (Number_of_N 30)
          false false;
        FinancialItem.mk (js "Patrimônio Líquido") (Number_of_N 960) (Number_of_N 870)
          false true;
        FinancialItem.mk (js "TOTAL DO PASSIVO") (Number_of_N 1000) (Number_of_N 900)
          true false ] ).
Proof. rewrite parse_rows_omap. vm_compute. reflexivity. Qed.

Lemma parsed_items_values_witness :
  let item := FinancialItem.mk (js "Total do Ativo") (Number_of_N 1000) (Number_of_N 900)
                true false in
  FinancialItem.v25 item <> NaN /\ FinancialItem.v25 item <> S754_zero true
  /\ FinancialItem.v24 item <> NaN /\ FinancialItem.v24 item <> S754_zero true
  /\ item_safe item =
       isFinite (FinancialItem.v25 item) && isFinite (FinancialItem.v24 item).
Proof.
  intros item.
  apply (@parsed_items_values Reference.numberFormat Reference.caseMapping sample_rows item).
  left. rewrite sample_rows_parsed. cbn [fst].
  apply list_elem_of_further, list_elem_of_here.
Defined.

(** X6.  The summary totals are never [NaN] and never [-0], for any
    aggregate and without one: a card shows a Number that is [0] or not
    falsy. *)
Theorem totals_never_nan (data : option DashboardData) :
  let ok x := x <> NaN /\ x <> S754_zero true in
  ok (App.a25 (App.totals data)) /\ ok (App.a24 (App.totals data))
  /\ ok (App.p25 (App.totals data)) /\ ok (App.p24 (App.totals data)).
Proof.
  assert (Hor : forall o, or_zero o <> NaN /\ or_zero o <> S754_zero true).
  { intros [x|]; cbn [or_zero]; [|split; discriminate].
    unfold Number_or. destruct (Number_truthy x) eqn:Hx; [|split; discriminate].
    split; intros ->; discriminate Hx. }
  destruct data as [data|]; cbn [App.totals App.a25 App.a24 App.p25 App.p24].
  - repeat split; apply Hor.
  - repeat split; discriminate.
Qed.

(** ** The adapter and the state of [App] *)

Section state_properties.
Context `{J : JSON}.

Import databaseService.

Lemma perform_all_snoc (ops : list Adapter.operation) (op : Adapter.operation) (env : Env) :
  Adapter.perform_all (ops ++ [op]) env = Adapter.perform op (Adapter.perform_all ops env).
Proof. unfold Adapter.perform_all. rewrite fold_left_app. reflexivity. Qed.

Lemma loadData_store (env : Env) : localStorage (snd (loadData env)) = localStorage env.
Proof.
  destruct (localStorage env !! STORAGE_KEY) as [[|c text]|] eqn:Hsaved.
  - rewrite loadData_empty_text by exact Hsaved. reflexivity.
  - rewrite (loadData_present env (c :: text)) by (exact Hsaved || discriminate).
    destruct (JSON_parse (c :: text)); reflexivity.
  - rewrite loadData_absent by exact Hsaved. reflexivity.
Qed.

(** X7.  After any sequence of operations of the adapter, the text under
    the key is the one written by the most recent [saveData], unless a
    [clearData] came after it: a save overwrites, a clear removes, a load
    changes nothing. *)
Theorem adapter_last_write (ops : list Adapter.operation) (env : Env)
    (data : DashboardData) :
  localStorage (Adapter.perform_all (ops ++ [Adapter.SaveData data]) env) !! STORAGE_KEY =
    Some (JSON_stringify (DashboardData_to_js data))
  /\ localStorage (Adapter.perform_all (ops ++ [Adapter.ClearData]) env) !! STORAGE_KEY = None
  /\ localStorage (Adapter.perform_all (ops ++ [Adapter.LoadData]) env) =
      localStorage (Adapter.perform_all ops env).
Proof.
  rewrite !perform_all_snoc. cbn [Adapter.perform]. split; [|split].
  - unfold saveData, setItem. cbn [snd localStorage]. apply lookup_insert_eq.
  - unfold clearData, removeItem. cbn [snd localStorage]. apply lookup_delete_eq.
  - apply loadData_store.
Qed.

(** X8.  [loadData] only reads: the store is as before, so a second
    [loadData] returns what the first returned. *)
Theorem loadData_repeatable (env : Env) :
  localStorage (snd (loadData env)) = localStorage env
  /\ fst (loadData (snd (loadData env))) = fst (loadData env).
Proof.
  split; [apply loadData_store|].
  destruct (localStorage env !! STORAGE_KEY) as [[|c text]|] eqn:Hsaved.
  - rewrite (loadData_empty_text env) by exact Hsaved.
    rewrite loadData_empty_text by exact Hsaved. reflexivity.
  - rewrite (loadData_present env (c :: text)) by (exact Hsaved || discriminate).
    destruct (JSON_parse (c :: text)) eqn:Hparse; cbn [fst snd];
      rewrite (loadData_present _ (c :: text)) by (exact Hsaved || discriminate);
      rewrite Hparse; reflexivity.
  - rewrite (loadData_absent env) by exact Hsaved.
    rewrite loadData_absent by exact Hsaved. reflexivity.
Qed.

(** X9.  The effect that runs on mount never throws, and it sets the data
    exactly when the key holds a text that is not empty and that
    [JSON.parse] reads as a value that is not falsy; a stored [null], [0],
    [false] or empty string leaves the application without data, as an
    absent key and a text that does not parse do. *)
Theorem load_initial_data_spec (env : Env) :
  (exists r, fst (Dashboard.load_initial_data env) = Normal r)
  /\ forall v,
       fst (Dashboard.load_initial_data env) = Normal (Some v) <->
       exists text,
         localStorage env !! STORAGE_KEY = Some text /\ text <> []
         /\ JSON_parse text = Normal v /\ Dashboard.ToBoolean_value v = true.
Proof.
  unfold Dashboard.load_initial_data, bind, ret.
  destruct (localStorage env !! STORAGE_KEY) as [[|c text]|] eqn:Hsaved.
  - rewrite loadData_empty_text by exact Hsaved. cbn. split; [eauto|].
    intros v. split; [discriminate|].
    intros (text & [= <-] & Hne & _). contradiction Hne. reflexivity.
  - rewrite (loadData_present env (c :: text)) by (exact Hsaved || discriminate).
    destruct (JSON_parse (c :: text)) as [w|e] eqn:Hparse; cbn [fst snd].
    + split; [eauto|]. intros v. split.
      * destruct (Dashboard.ToBoolean_value w) eqn:Hw; [|discriminate].
        intros [= <-]. exists (c :: text). repeat split; (assumption || discriminate).
      * intros (text' & [= <-] & _ & Hparse' & Hv).
        rewrite Hparse in Hparse'. injection Hparse' as ->. rewrite Hv. reflexivity.
    + cbn. split; [eauto|]. intros v. split; [discriminate|].
      intros (text' & [= <-] & _ & Hparse' & _). rewrite Hparse in Hparse'. discriminate.
  - rewrite loadData_absent by exact Hsaved. cbn. split; [eauto|].
    intros v. split; [discriminate|]. intros (text & Habs & _). discriminate.
Qed.

(** X10.  [handleReset]: when the user confirms, the key is removed, the
    data and the insight text are cleared, every other key of the store
    and the other state cells are kept, and a later mount finds no data;
    when the user cancels, neither the state nor the store changes. *)
Theorem handleReset_spec (st : Dashboard.State) (env : Env) :
  (fst (Dashboard.handleReset true st env) =
     Normal (Dashboard.mkState None (Dashboard.viewMode st) (Dashboard.activeTab st)
               (Dashboard.isAiLoading st) [])
   /\ localStorage (snd (Dashboard.handleReset true st env)) !! STORAGE_KEY = None
   /\ (forall key, key <> STORAGE_KEY ->
         localStorage (snd (Dashboard.handleReset true st env)) !! key =
           localStorage env !! key)
   /\ fst (Dashboard.load_initial_data (snd (Dashboard.handleReset true st env))) =
       Normal None)
  /\ Dashboard.handleReset false st env = (Normal st, env).
Proof.
  split; [|reflexivity].
  assert (Hgone : localStorage (snd (Dashboard.handleReset true st env)) !! STORAGE_KEY = None).
  { unfold Dashboard.handleReset, bind, clearData, removeItem. cbn [snd localStorage].
    apply lookup_delete_eq. }
  split; [reflexivity|]. split; [exact Hgone|]. split.
  - intros key Hkey.
    unfold Dashboard.handleReset, bind, clearData, removeItem. cbn [snd localStorage].
    apply lookup_delete_ne. congruence.
  - unfold Dashboard.load_initial_data, bind, ret.
    rewrite loadData_absent by exact Hgone. reflexivity.
Qed.

Section upload_reload.
Context `{NF : NumberFormat} `{CM : CaseMapping} `{!JSONLaws}.

(** X11.  An upload survives a reload: when every value the parser read is
    finite, [reader.onload] stores the new aggregate (the parsed lists, the
    default KPIs and the time stamp), makes it the data of the state,
    clears the insight text, and the effect that runs on the next mount
    gets back a value equal to that aggregate. *)
Theorem upload_then_reload (rows : list (list prim)) (now : jsstring)
    (st : Dashboard.State) (env : Env) :
  (forall item,
     item ∈ fst (App.parse_rows rows) \/ item ∈ snd (App.parse_rows rows) ->
     isFinite (FinancialItem.v25 item) = true /\ isFinite (FinancialItem.v24 item) = true) ->
  let newData :=
    {| ativo := fst (App.parse_rows rows); passivo := snd (App.parse_rows rows);
       kpis := App.DEFAULT_KPIS; lastUpdated := now |} in
  fst (Dashboard.onload rows now st env) =
    Normal (Dashboard.mkState (Some newData) (Dashboard.viewMode st)
              (Dashboard.activeTab st) (Dashboard.isAiLoading st) [])
  /\ fst (Dashboard.load_initial_data (snd (Dashboard.onload rows now st env))) =
      Normal (Some (DashboardData_to_js newData)).
Proof.
  intros Hfinite newData.
  unfold Dashboard.onload, bind, ret. rewrite handleFileUpload_saves.
  fold newData. cbn [fst snd]. split; [reflexivity|].
  assert (Hsafe : json_safe newData = true).
  { assert (Hitems : forall l,
              (forall item, item ∈ l ->
                 item ∈ fst (App.parse_rows rows) \/ item ∈ snd (App.parse_rows rows)) ->
              forallb item_safe l = true).
    { intros l Hl. apply forallb_forall. intros item Hin%list_elem_of_In.
      rewrite (parsed_item_safe rows item (Hl item Hin)).
      destruct (Hfinite item (Hl item Hin)) as [-> ->]. reflexivity. }
    unfold json_safe, newData. cbn [ativo passivo kpis].
    rewrite (Hitems (fst (App.parse_rows rows))) by auto.
    rewrite (Hitems (snd (App.parse_rows rows))) by auto.
    vm_compute. reflexivity. }
  pose proof (save_then_load newData env _
                (SerializeJSONProperty_exact _ (DashboardData_exact _ Hsafe))) as Hload.
  unfold Dashboard.load_initial_data, bind, ret.
  destruct (loadData (snd (saveData newData env))) as [r env'].
  cbn [fst] in Hload. subst r. reflexivity.
Qed.

End upload_reload.
End state_properties.

Lemma upload_then_reload_witness :
  fst (@Dashboard.load_initial_data Reference.json
         (snd (@Dashboard.onload Reference.numberFormat Reference.caseMapping Reference.json
                 sample_rows (js "2025-01-01T00:00:00.000Z") Dashboard.initial emptyEnv))) =
    Normal (Some (DashboardData_to_js
      {| ativo := fst (@App.parse_rows Reference.numberFormat Reference.caseMapping
                         sample_rows);
         passivo := snd (@App.parse_rows Reference.numberFormat Reference.caseMapping
                           sample_rows);
         kpis := App.DEFAULT_KPIS;
         lastUpdated := js "2025-01-01T00:00:00.000Z" |})).
Proof.
  apply (@upload_then_reload Reference.json Reference.numberFormat Reference.caseMapping
           reference_JSONLaws sample_rows (js "2025-01-01T00:00:00.000Z")
           Dashboard.initial emptyEnv).
  intros item Hitem. rewrite sample_rows_parsed in Hitem. cbn [fst snd] in Hitem.
  rewrite !elem_of_cons, !elem_of_nil in Hitem.
  destruct Hitem as [[-> | [-> | []]] | [-> | [-> | [-> | []]]]]; split; reflexivity.
Defined.

(** ** The insight requester and [generateInsights] *)

Section request_properties.
Context `{NF : NumberFormat} `{G : geminiService.GoogleGenAI}.

Import geminiService.

(** X12.  [getFinancialInsights] never touches the store: [localStorage]
    and the calls made on it are as before, whatever the client does.  The
    console is as before, or longer by the one entry
    [["Gemini Error:", error]], and then the answer is
    [CONNECTION_ERROR]. *)
Theorem getFinancialInsights_frame (data : DashboardData) (env : Env) :
  let after := snd (getFinancialInsights data env) in
  localStorage after = localStorage env
  /\ storageCalls after = storageCalls env
  /\ (console after = console env
      \/ exists error,
           console after = console env ++ [[Prim (Str (js "Gemini Error:")); error]]
           /\ fst (getFinancialInsights data env) = Normal CONNECTION_ERROR).
Proof.
  destruct (new_GoogleGenAI API_KEY) as [ai|e] eqn:Hnew.
  - rewrite (getFinancialInsights_constructed data env ai Hnew).
    destruct (generateContent ai _ _) as [response|error]; cbn [fst snd].
    + repeat split. left. reflexivity.
    + repeat split. right. exists error. split; reflexivity.
  - rewrite (getFinancialInsights_not_constructed data env e Hnew). cbn [snd].
    repeat split. left. reflexivity.
Qed.

(** X13.  Of the aggregate, the request uses the 2025 value of the first
    total row of each list and the KPIs, nothing else: two aggregates that
    agree on these get the same answer and leave the same host state,
    whatever their other rows, descriptions, 2024 values and time
    stamps. *)
Theorem getFinancialInsights_inputs (data data' : DashboardData) (env : Env) :
  FinancialItem.v25 <$> List.find FinancialItem.isTotal (ativo data) =
    FinancialItem.v25 <$> List.find FinancialItem.isTotal (ativo data') ->
  FinancialItem.v25 <$> List.find FinancialItem.isTotal (passivo data) =
    FinancialItem.v25 <$> List.find FinancialItem.isTotal (passivo data') ->
  kpis data = kpis data' ->
  getFinancialInsights data env = getFinancialInsights data' env.
Proof.
  intros Ha Hp Hk.
  destruct (new_GoogleGenAI API_KEY) as [ai|e] eqn:Hnew.
  - rewrite !(getFinancialInsights_constructed _ env ai Hnew).
    unfold Requester.prompt_of. rewrite Ha, Hp, Hk. reflexivity.
  - rewrite !(getFinancialInsights_not_constructed _ env e Hnew). reflexivity.
Qed.

(** X14.  [generateInsights] with a client that can be constructed: the
    handler ends normally, the insight text becomes a report that is not
    empty, the loading flag is back to [false], the active tab is
    [insights], the data and the view mode are kept, the button is enabled
    again and the store is untouched. *)
Theorem generateInsights_completes (st : Dashboard.State) (env : Env)
    (d : DashboardData) (ai : Client) :
  new_GoogleGenAI API_KEY = Normal ai ->
  Dashboard.data st = Some d ->
  exists report env',
    Dashboard.generateInsights st env =
      (Normal tt,
       Dashboard.mkState (Some d) (Dashboard.viewMode st) Dashboard.insights false report,
       env')
    /\ report <> []
    /\ Dashboard.insights_disabled
         (Dashboard.mkState (Some d) (Dashboard.viewMode st) Dashboard.insights false report)
       = false
    /\ localStorage env' = localStorage env.
Proof.
  intros Hnew Hdata. unfold Dashboard.generateInsights. rewrite Hdata.
  rewrite (getFinancialInsights_constructed d env ai Hnew).
  destruct (generateContent ai _ _) as [response|error].
  - exists (String_or (text response) NO_INSIGHTS), env.
    split; [reflexivity|]. split; [|split; reflexivity].
    destruct (text response) as [[|c r]|]; cbn [String_or]; discriminate.
  - eexists CONNECTION_ERROR, _. split; [reflexivity|].
    split; [discriminate | split; reflexivity].
Qed.

(** X15.  [generateInsights] with a client that cannot be constructed:
    without data the handler does nothing and does not fail; with data the
    exception of the constructor leaves the handler after the loading flag
    was set, so the flag stays [true], the button stays disabled, and the
    tab and the insight text are as before. *)
Theorem generateInsights_stuck (st : Dashboard.State) (env : Env) (e : jsval) :
  new_GoogleGenAI API_KEY = Throw e ->
  (Dashboard.data st = None -> Dashboard.generateInsights st env = (Normal tt, st, env))
  /\ forall d,
       Dashboard.data st = Some d ->
       let loading :=
         Dashboard.mkState (Some d) (Dashboard.viewMode st) (Dashboard.activeTab st) true
           (Dashboard.aiInsights st) in
       Dashboard.generateInsights st env = (Throw e, loading, env)
       /\ Dashboard.insights_disabled loading = true.
Proof.
  intros Hnew. split.
  - intros Hdata. unfold Dashboard.generateInsights. rewrite Hdata. reflexivity.
  - intros d Hdata loading. unfold Dashboard.generateInsights. rewrite Hdata.
    rewrite (getFinancialInsights_not_constructed d env e Hnew).
    split; reflexivity.
Qed.

End request_properties.

Lemma getFinancialInsights_inputs_witness :
  let sdk := Reference.browser_sdk (Some (js "key"))
               (fun contents => Normal {| geminiService.text := Some contents |}) in
  let total v25 v24 name := FinancialItem.mk name (Number_of_N v25) (Number_of_N v24)
                              true false in
  @geminiService.getFinancialInsights Reference.numberFormat sdk
    {| ativo := [FinancialItem.mk (js "Caixa") (Number_of_N 100) (Number_of_N 50) false false;
                 total 1000%N 900%N (js "Total do Ativo")];
       passivo := [total 1000%N 900%N (js "TOTAL DO PASSIVO")];
       kpis := App.DEFAULT_KPIS; lastUpdated := js "2025" |} emptyEnv =
  @geminiService.getFinancialInsights Reference.numberFormat sdk
    {| ativo := [total 1000%N 1%N (js "Total"); total 5%N 5%N (js "Total geral")];
       passivo := [total 1000%N 2%N (js "Total")];
       kpis := App.DEFAULT_KPIS; lastUpdated := js "2024" |} emptyEnv.
Proof.
  intros sdk total.
  apply (@getFinancialInsights_inputs Reference.numberFormat sdk); reflexivity.
Defined.

Lemma generateInsights_completes_witness :
  let sdk := Reference.browser_sdk (Some (js "key"))
               (fun _ => Normal {| geminiService.text := None |}) in
  let st := Dashboard.mkState (Some empty_data) Dashboard.Only2025 Dashboard.balanco false [] in
  exists report env',
    @Dashboard.generateInsights Reference.numberFormat sdk st emptyEnv =
      (Normal tt,
       Dashboard.mkState (Some empty_data) Dashboard.Only2025 Dashboard.insights false report,
       env')
    /\ report <> []
    /\ Dashboard.insights_disabled
         (Dashboard.mkState (Some empty_data) Dashboard.Only2025 Dashboard.insights false
            report) = false
    /\ localStorage env' = localStorage emptyEnv.
Proof.
  intros sdk st.
  apply (@generateInsights_completes Reference.numberFormat sdk st emptyEnv empty_data
           (js "key")); reflexivity.
Defined.

Lemma generateInsights_stuck_witness :
  let sdk := Reference.browser_sdk None
               (fun _ => Normal {| geminiService.text := Some (js "ok") |}) in
  let st := Dashboard.mkState (Some empty_data) Dashboard.COMPARATIVO Dashboard.balanco false
              (js "old") in
  @Dashboard.generateInsights Reference.numberFormat sdk st emptyEnv =
    (Throw (Reference.Error "Error" "An API Key must be set when running in a browser"),
     Dashboard.mkState (Some empty_data) Dashboard.COMPARATIVO Dashboard.balanco true
       (js "old"),
     emptyEnv)
  /\ Dashboard.insights_disabled
       (Dashboard.mkState (Some empty_data) Dashboard.COMPARATIVO Dashboard.balanco true
          (js "old")) = true.
Proof.
  intros sdk st.
  apply (@generateInsights_stuck Reference.numberFormat sdk st emptyEnv _ eq_refl);
    reflexivity.
Defined.

(** ** The balance table: the [AH %] column *)

(** Rounding a mantissa that is not negative never gives [NaN]. *)
Lemma shr_1_nonneg (mrs : shr_record) : (0 <= shr_m mrs)%Z -> (0 <= shr_m (shr_1 mrs))%Z.
Proof. destruct mrs as [[|[p|p|]|p] r s]; cbn; lia. Qed.

Lemma iter_shr_1_nonneg (p : positive) (mrs : shr_record) :
  (0 <= shr_m mrs)%Z -> (0 <= shr_m (SpecFloat.iter_pos shr_1 p mrs))%Z.
Proof.
  revert mrs. induction p as [p IH|p IH|]; intros mrs Hm; cbn [SpecFloat.iter_pos].
  - apply IH, IH, shr_1_nonneg, Hm.
  - apply IH, IH, Hm.
  - apply shr_1_nonneg, Hm.
Qed.

Lemma shr_fexp_nonneg (m e : Z) (l : location) :
  (0 <= m)%Z -> (0 <= shr_m (fst (shr_fexp prec emax m e l)))%Z.
Proof.
  intros Hm. unfold shr_fexp, shr.
  assert (Hrec : (0 <= shr_m (shr_record_of_loc m l))%Z) by (destruct l as [|[]]; exact Hm).
  destruct (fexp prec emax (Zdigits2 m + e) - e)%Z; cbn [fst]; try exact Hrec.
  apply iter_shr_1_nonneg. exact Hrec.
Qed.

Lemma round_nearest_even_nonneg (m : Z) (l : location) :
  (0 <= m)%Z -> (0 <= round_nearest_even m l)%Z.
Proof.
  intros Hm. unfold round_nearest_even.
  destruct l as [|[]]; try destruct (Z.even m); lia.
Qed.

Lemma binary_round_aux_not_nan (s : bool) (m e : Z) (l : location) :
  (0 <= m)%Z -> binary_round_aux prec emax s m e l <> S754_nan.
Proof.
  intros Hm. unfold binary_round_aux.
  pose proof (shr_fexp_nonneg m e l Hm) as H1.
  destruct (shr_fexp prec emax m e l) as [mrs' e']. cbn [fst] in H1.
  pose proof (shr_fexp_nonneg _ e' loc_Exact
                (round_nearest_even_nonneg _ (loc_of_shr_record mrs') H1)) as H2.
  destruct (shr_fexp prec emax _ e' loc_Exact) as [mrs'' e'']. cbn [fst] in H2.
  destruct (shr_m mrs'') as [|q|q]; [discriminate| |lia].
  destruct (e'' <=? emax - prec)%Z; discriminate.
Qed.

Lemma binary_round_not_nan (s : bool) (m : positive) (e : Z) :
  binary_round prec emax s m e <> S754_nan.
Proof.
  unfold binary_round. destruct (shl_align _ _ _) as [mz ez].
  apply binary_round_aux_not_nan. lia.
Qed.

Lemma binary_normalize_not_nan (m e : Z) (szero : bool) :
  binary_normalize prec emax m e szero <> S754_nan.
Proof.
  destruct m; cbn [binary_normalize]; [discriminate | apply binary_round_not_nan ..].
Qed.

Lemma SFdiv_core_binary_nonneg (m1 m2 : positive) (e1 e2 : Z) :
  (0 <= fst (fst (SFdiv_core_binary prec emax (Z.pos m1) e1 (Z.pos m2) e2)))%Z.
Proof.
  unfold SFdiv_core_binary.
  set (s := (e1 - e2 - _)%Z).
  set (m' := match s with Z.pos _ => Z.shiftl (Z.pos m1) s | Z0 => Z.pos m1 | Z.neg _ => 0%Z end).
  assert (Hm' : (0 <= m')%Z).
  { subst m'. destruct s; try lia. apply Z.shiftl_nonneg. lia. }
  pose proof (Z.div_pos m' (Z.pos m2) Hm' ltac:(lia)) as Hq.
  unfold Z.div in Hq. destruct (Z.div_eucl m' (Z.pos m2)) as [q r]. exact Hq.
Qed.

(** When the operations of [ah] give [NaN]. *)
Lemma div_nan (x y : number) :
  Dashboard.div x y = NaN ->
  x = NaN \/ y = NaN \/ (isFinite x = false /\ isFinite y = false)
  \/ (Number_truthy x = false /\ Number_truthy y = false).
Proof.
  unfold Dashboard.div, NaN.
  destruct x as [sx|sx| |sx mx ex], y as [sy|sy| |sy my ey]; cbn [SFdiv isFinite Number_truthy];
    try discriminate; auto.
  intros Hnan. exfalso.
  pose proof (SFdiv_core_binary_nonneg mx my ex ey) as Hq.
  destruct (SFdiv_core_binary prec emax (Z.pos mx) ex (Z.pos my) ey) as [[mz ez] lz].
  cbn [fst] in Hq. exact (binary_round_aux_not_nan _ _ _ _ Hq Hnan).
Qed.

Lemma sub_finite_nan (x : number) (s : bool) (m : positive) (e : Z) :
  Dashboard.sub x (S754_finite s m e) = NaN -> x = NaN.
Proof.
  unfold Dashboard.sub, NaN. destruct x as [sx|sx| |sx mx ex]; cbn [SFsub];
    try discriminate; auto.
  intros Hnan. exfalso. exact (binary_normalize_not_nan _ _ _ Hnan).
Qed.

Lemma mul_finite_nan (x : number) (s : bool) (m : positive) (e : Z) :
  Dashboard.mul x (S754_finite s m e) = NaN -> x = NaN.
Proof.
  unfold Dashboard.mul, NaN. destruct x as [sx|sx| |sx mx ex]; cbn [SFmul];
    try discriminate; auto.
  intros Hnan. exfalso.
  exact (binary_round_aux_not_nan _ _ _ _ (Pos2Z.is_nonneg (mx * m)) Hnan).
Qed.

Lemma one_and_hundred :
  Number_of_N 1 = S754_finite false 4503599627370496 (-52)
  /\ Number_of_N 100 = S754_finite false 7036874417766400 (-46).
Proof. split; vm_compute; reflexivity. Qed.

(** X16.  The change shown for a row is [NaN] in two cases only, both with
    a 2024 value that is not falsy: the 2025 value is [NaN], or both values
    are infinite.  The row then carries the falling trend, [NaN >= 0]
    being false. *)
Theorem ah_nan (item : FinancialItem.t) :
  (Dashboard.ah item = NaN <->
   Number_truthy (FinancialItem.v24 item) = true
   /\ (FinancialItem.v25 item = NaN
       \/ (isFinite (FinancialItem.v25 item) = false
           /\ isFinite (FinancialItem.v24 item) = false)))
  /\ (Dashboard.ah item = NaN -> Dashboard.ge_zero (Dashboard.ah item) = false).
Proof.
  destruct one_and_hundred as [Hone Hhundred].
  split; [|intros ->; reflexivity].
  unfold Dashboard.ah. rewrite Hone, Hhundred.
  destruct (Number_truthy (FinancialItem.v24 item)) eqn:Hbase.
  - split.
    + intros Hnan. split; [reflexivity|].
      apply mul_finite_nan, sub_finite_nan, div_nan in Hnan.
      destruct Hnan as [H | [H | [H | [_ H]]]]; auto.
      * rewrite H in Hbase. discriminate.
      * rewrite H in Hbase. discriminate.
    + intros [_ [H | [H1 H2]]].
      * rewrite H. reflexivity.
      * destruct (FinancialItem.v25 item) as [| | |]; try discriminate; [|reflexivity].
        destruct (FinancialItem.v24 item) as [| | |]; try discriminate. reflexivity.
  - split; [discriminate | intros [? _]; discriminate].
Qed.

(** X17.  Edges of the change: a falsy 2024 value ([0], [-0] or [NaN])
    gives [0], shown with the rising trend; a 2025 value that is zero, or a
    finite 2025 value against an infinite 2024 value, gives exactly
    [-100]. *)
Theorem ah_edges (item : FinancialItem.t) :
  (Number_truthy (FinancialItem.v24 item) = false ->
   Dashboard.ah item = zero /\ Dashboard.ge_zero (Dashboard.ah item) = true)
  /\ (Number_truthy (FinancialItem.v24 item) = true ->
      isFinite (FinancialItem.v25 item) = true ->
      Number_truthy (FinancialItem.v25 item) = false
      \/ isFinite (FinancialItem.v24 item) = false ->
      Dashboard.ah item = SFopp (Number_of_N 100)
      /\ Dashboard.ge_zero (Dashboard.ah item) = false).
Proof.
  unfold Dashboard.ah. split.
  - intros ->. split; reflexivity.
  - intros Hbase Hcur Hcase. rewrite Hbase.
    assert (Hdiv : exists s,
              Dashboard.div (FinancialItem.v25 item) (FinancialItem.v24 item) = S754_zero s).
    { unfold Dashboard.div.
      destruct (FinancialItem.v25 item) as [sx|sx| |sx mx ex],
               (FinancialItem.v24 item) as [sy|sy| |sy my ey];
        cbn [SFdiv isFinite Number_truthy] in *; try discriminate; eauto.
      destruct Hcase; discriminate. }
    destruct Hdiv as [s ->]. destruct s; vm_compute; split; reflexivity.
Qed.

Lemma ah_nan_witness :
  Dashboard.ah (FinancialItem.mk (js "Caixa") Infinity Infinity false false) = NaN
  /\ Dashboard.ge_zero
       (Dashboard.ah (FinancialItem.mk (js "Caixa") Infinity Infinity false false)) = false.
Proof.
  pose proof (ah_nan (FinancialItem.mk (js "Caixa") Infinity Infinity false false))
    as [[_ Hnan] Htrend].
  assert (Hah : Dashboard.ah (FinancialItem.mk (js "Caixa") Infinity Infinity false false)
                = NaN).
  { apply Hnan. split; [reflexivity | right; split; reflexivity]. }
  split; [exact Hah | exact (Htrend Hah)].
Defined.

Lemma ah_edges_witness :
  Dashboard.ah (FinancialItem.mk (js "Caixa") zero (Number_of_N 50) false false) =
    SFopp (Number_of_N 100)
  /\ Dashboard.ge_zero
       (Dashboard.ah (FinancialItem.mk (js "Caixa") zero (Number_of_N 50) false false)) = false.
Proof.
  apply (proj2 (ah_edges (FinancialItem.mk (js "Caixa") zero (Number_of_N 50) false false)));
    [reflexivity | reflexivity | left; reflexivity].
Defined.

(** ** The parser is local to the row *)

Section parser_locality.
Context `{NF : NumberFormat} `{CM : CaseMapping}.

Lemma omap_length_le {A B} (f : A -> option B) (l : list A) :
  (length (omap f l) <= length l)%nat.
Proof.
  induction l as [|a l IH]; cbn [omap list_omap length]; [lia|].
  destruct (f a); cbn [length]; lia.
Qed.

(** X18.  No state is carried from one row to the next: parsing a sheet
    whose body is one block of rows after another gives, list by list, the
    items of the first block followed by those of the second, whatever the
    header rows are; and neither list has more items than the sheet has
    rows after the header. *)
Theorem parse_rows_local (header header' : list prim) (body body' : list (list prim)) :
  fst (App.parse_rows (header :: body ++ body')) =
    fst (App.parse_rows (header :: body)) ++ fst (App.parse_rows (header' :: body'))
  /\ snd (App.parse_rows (header :: body ++ body')) =
      snd (App.parse_rows (header :: body)) ++ snd (App.parse_rows (header' :: body'))
  /\ (length (fst (App.parse_rows (header :: body))) <= length body)%nat
  /\ (length (snd (App.parse_rows (header :: body))) <= length body)%nat.
Proof.
  rewrite !parse_rows_omap. cbn [skipn fst snd]. rewrite !drop_0.
  rewrite !omap_app. repeat split; try reflexivity; apply omap_length_le.
Qed.

End parser_locality.
